(** * logz: a leveled logging facade over the zap engine

    Shallow embedding of [src/log.go].  The facade's own code (the field
    normalizer [handleFields], the verbosity gate [V], the info-only
    loggers, [Write], the derivation operations and [New]) is translated
    function by function.  The zap engine is an external collaborator: it
    is modelled at the boundary the facade calls, as a heap of engine
    logger objects together with the trace of calls made on them. *)

From Stdlib Require Import ZArith Lia.
From Stdlib.Strings Require Import Byte Ascii.
From stdpp Require Import strings list gmap.

Local Open Scope Z_scope.

(** ** Machine integers *)

(** Go integer conversions truncate: the value is reduced modulo [2^bits]
    and read back as a signed number. *)
Definition wrap (bits : Z) (z : Z) : Z :=
  (z + 2 ^ (bits - 1)) mod 2 ^ bits - 2 ^ (bits - 1).

(** [int] on the 64-bit targets, and its multiplication. *)
Definition int (z : Z) : Z := wrap 64 z.
Definition int_mul (a b : Z) : Z := int (a * b).

(** [zapcore.Level] is declared as [type Level int8]; [zapcore.Level(x)]
    converts an [int] to it. *)
Definition zapcore_Level (x : Z) : Z := wrap 8 x.

Definition DebugLevel : Z := -1.
Definition InfoLevel : Z := 0.
Definition WarnLevel : Z := 1.
Definition ErrorLevel : Z := 2.
Definition DPanicLevel : Z := 3.
Definition PanicLevel : Z := 4.
Definition FatalLevel : Z := 5.

(** ** Dynamic values and fields *)

(** [zapcore.FieldType], restricted to the kinds [zap.Any] selects for the
    dynamic types below.  [UnknownType] is the zero value. *)
Inductive FieldType : Type :=
| UnknownType
| BoolType
| Int64Type
| StringType
| ReflectType.

(** Values of type [interface{}], by dynamic type, and [zapcore.Field].
    A field can reach [handleFields] by value ([IField]) or behind a
    pointer ([IFieldPtr]); these are different dynamic types in Go. *)
Inductive iface : Type :=
| INil
| IString (s : string)
| IInt (n : Z)
| IBool (b : bool)
| IField (f : Field)
| IFieldPtr (f : Field)
with Field : Type :=
| mkField (Key : string) (Type_ : FieldType) (Integer : Z) (Str : string)
          (Interface : iface).

Definition Key (f : Field) : string :=
  match f with mkField k _ _ _ _ => k end.
Definition Type_ (f : Field) : FieldType :=
  match f with mkField _ t _ _ _ => t end.

(** The zero value of [zap.Field], which [make] fills a slice with. *)
Definition zeroField : Field := mkField "" UnknownType 0 "" INil.

(** Some field is of unknown type.  zap's encoders panic when such a
    field is added to them ([Field.AddTo]: "unknown field type"). *)
Definition has_unknown_field (fields : list Field) : bool :=
  existsb (fun f => match Type_ f with UnknownType => true | _ => false end)
    fields.

(** [zap.Any(key, value)]: the field constructor chosen by the dynamic
    type of [value]; anything without a dedicated constructor is kept as a
    reflected value. *)
Definition zap_Any (key : string) (value : iface) : Field :=
  match value with
  | IString s => mkField key StringType 0 s INil
  | IInt n => mkField key Int64Type n "" INil
  | IBool b => mkField key BoolType (if b then 1 else 0) "" INil
  | _ => mkField key ReflectType 0 "" value
  end.

(** The value a field built by [zap.Any] carries. *)
Definition field_value (f : Field) : iface :=
  match f with
  | mkField _ StringType _ s _ => IString s
  | mkField _ Int64Type n _ _ => IInt n
  | mkField _ BoolType n _ _ => IBool (negb (n =? 0))
  | mkField _ _ _ _ v => v
  end.

(** The type assertions of [handleFields]. *)
Definition is_FieldPtr (v : iface) : bool :=
  match v with IFieldPtr _ => true | _ => false end.
Definition as_string (v : iface) : option string :=
  match v with IString s => Some s | _ => None end.

(** A pre-built field value of either kind. *)
Definition is_prebuilt_field (v : iface) : bool :=
  match v with IField _ | IFieldPtr _ => true | _ => false end.

(** ** The engine boundary *)

(** [zapcore.EncoderConfig]: the encoders are named, not interpreted. *)
Inductive LevelEncoder := CapitalLevelEncoder | CapitalColorLevelEncoder.
Inductive TimeEncoder := timeEncoder.
Inductive DurationEncoder := milliSecondsDurationEncoder.
Inductive CallerEncoder := ShortCallerEncoder.

Record EncoderConfig : Type := {
  MessageKey : string;
  LevelKey : string;
  TimeKey : string;
  NameKey : string;
  CallerKey : string;
  StacktraceKey : string;
  LineEnding : string;
  EncodeLevel : LevelEncoder;
  EncodeTime : TimeEncoder;
  EncodeDuration : DurationEncoder;
  EncodeCaller : CallerEncoder
}.

Record SamplingConfig : Type := { Initial : Z; Thereafter : Z }.

(** [zap.Config] as [New] fills it. *)
Record zap_Config : Type := {
  cfg_Level : Z;
  cfg_Development : bool;
  cfg_DisableStacktrace : bool;
  cfg_DisableCaller : bool;
  cfg_Sampling : SamplingConfig;
  cfg_Encoding : string;
  cfg_EncoderConfig : EncoderConfig;
  cfg_OutputPaths : list string;
  cfg_ErrorOutputPaths : list string
}.

(** A [zap.Logger] object, as far as the facade can observe it: the
    configuration it was built from, the options given to [Build], its
    name and the fields bound to it by [With]. *)
Record zap_Logger : Type := {
  zl_config : zap_Config;
  zl_addStacktrace : Z;
  zl_callerSkip : Z;
  zl_name : string;
  zl_context : list Field
}.

(** Calls made on the engine. *)
Inductive Event : Type :=
| EvEnabled (h : positive) (lvl : Z)
| EvCheck (h : positive) (lvl : Z) (msg : string)
| EvWrite (h : positive) (lvl : Z) (msg : string) (fields : list Field)
| EvLog (h : positive) (lvl : Z) (msg : string) (fields : list Field)
| EvRedirectStdLog (h : positive).

(** The level an emission call is made at, if the call is one. *)
Definition emission_level (e : Event) : option Z :=
  match e with
  | EvWrite _ lvl _ _ | EvLog _ lvl _ _ => Some lvl
  | _ => None
  end.

(** ** This package's structures *)

Record infoLogger : Type := { level : Z; log : positive }.

Record zapLogger : Type := {
  zapLogger_zapLogger : positive;
  zapLogger_infoLogger : infoLogger
}.

(** ** Program state *)

(** The heap of engine loggers ([*zap.Logger]), the heap of this package's
    loggers ([*zapLogger]), the trace of engine calls, the sink paths the
    environment refuses to open, and the verdicts of the engine's sampler.
    The sampler counts entries per level and message within each second
    of wall-clock time, which the program does not control: [sampler w t]
    tells whether it lets through the entry checked by the last call of
    the trace [t]. *)
Record World : Type := {
  zapHeap : gmap positive zap_Logger;
  logHeap : gmap positive zapLogger;
  trace : list Event;
  unopenable : list string;
  sampler : list Event -> bool
}.

(** Ways a call can fail to return: a nil dereference, the panic zap
    raises after a DPanic-level entry in development mode, the panic of
    [New] on a build error, the panic of zap's encoder on a field of
    unknown type, the panic after a Panic-level entry, and the process
    exit after a Fatal-level entry. *)
Inductive panic : Type :=
| NilDereference
| DPanicRaised (msg : string)
| BuildFailed
| UnknownFieldType
| PanicRaised (msg : string)
| ProcessExit.

Inductive outcome (A : Type) : Type :=
| Ok (a : A)
| Panic (p : panic).
Arguments Ok {A} a.
Arguments Panic {A} p.

(** Computations: a result or a panic, and the state left behind. *)
Definition M (A : Type) : Type := World -> outcome A * World.

Definition ret {A} (a : A) : M A := fun w => (Ok a, w).
Definition raise {A} (p : panic) : M A := fun w => (Panic p, w).
Definition bind {A B} (c : M A) (k : A -> M B) : M B :=
  fun w => match c w with
           | (Ok a, w') => k a w'
           | (Panic p, w') => (Panic p, w')
           end.

Notation "'do' x <- c ; k" := (bind c (fun x => k))
  (at level 10, x name, c at level 100, k at level 200,
   format "'[v' 'do'  x  <-  c ; '/' k ']'").

Definition emit (e : Event) : M unit :=
  fun w => (Ok tt, {| zapHeap := zapHeap w; logHeap := logHeap w;
                      trace := trace w ++ [e]; unopenable := unopenable w;
                      sampler := sampler w |}).

(** Dereferencing a [*zap.Logger]. *)
Definition zap_deref (h : positive) : M zap_Logger :=
  fun w => match zapHeap w !! h with
           | Some e => (Ok e, w)
           | None => (Panic NilDereference, w)
           end.

(** Allocating a new engine logger object. *)
Definition zap_alloc (e : zap_Logger) : M positive :=
  fun w => let h := fresh (dom (zapHeap w)) in
           (Ok h, {| zapHeap := <[h := e]> (zapHeap w); logHeap := logHeap w;
                     trace := trace w; unopenable := unopenable w;
                     sampler := sampler w |}).

(** ** Engine operations *)

(** [l.Core().Enabled(lvl)].  The core's enabler is the atomic level the
    configuration was given ([zap.NewAtomicLevelAt]); it enables every
    level at or above its own. *)
Definition zap_Core_Enabled (h : positive) (lvl : Z) : M bool :=
  do e <- zap_deref h;
  do _ <- emit (EvEnabled h lvl);
  ret (cfg_Level (zl_config e) <=? lvl).

(** [zapcore.CheckWriteAction]: what follows the write of an entry. *)
Inductive CheckWriteAction : Type :=
| WriteThenNoop
| WriteThenPanic
| WriteThenFatal.

(** The action zap's [check] attaches to an entry: a panic at
    [PanicLevel], an exit at [FatalLevel], a panic at [DPanicLevel] on a
    development logger. *)
Definition terminal_action (e : zap_Logger) (lvl : Z) : CheckWriteAction :=
  if lvl =? PanicLevel then WriteThenPanic
  else if lvl =? FatalLevel then WriteThenFatal
  else if (lvl =? DPanicLevel) && cfg_Development (zl_config e)
       then WriteThenPanic
  else WriteThenNoop.

(** A [zapcore.CheckedEntry]: [ce_cores] tells whether a core registered
    to write the entry, [ce_should] is the action after the write. *)
Record CheckedEntry : Type := {
  ce_logger : positive;
  ce_level : Z;
  ce_message : string;
  ce_cores : bool;
  ce_should : CheckWriteAction
}.

(** The core registers for the entry checked last in the trace [t]: the
    level is enabled and, at the levels the sampler counts (debug to
    fatal), the sampler lets the entry through. *)
Definition core_accepts (e : zap_Logger) (w : World) (t : list Event)
  (lvl : Z) : bool :=
  (cfg_Level (zl_config e) <=? lvl)
  && (if (DebugLevel <=? lvl) && (lvl <=? FatalLevel) then sampler w t
      else true).

(** [l.Check(lvl, msg)].  Below [DPanicLevel] a disabled level gives nil
    at once.  Otherwise the (sampled) core is asked, the terminal action
    of the level is attached, and the entry is nil only if no core
    registered and there is no such action. *)
Definition zap_Check (h : positive) (lvl : Z) (msg : string)
  : M (option CheckedEntry) :=
  do e <- zap_deref h;
  do _ <- emit (EvCheck h lvl msg);
  fun w =>
    if (lvl <? DPanicLevel) && negb (cfg_Level (zl_config e) <=? lvl)
    then (Ok None, w)
    else
      let cores := core_accepts e w (trace w) lvl in
      let should := terminal_action e lvl in
      (Ok (match cores, should with
           | false, WriteThenNoop => None
           | _, _ => Some {| ce_logger := h; ce_level := lvl;
                             ce_message := msg; ce_cores := cores;
                             ce_should := should |}
           end), w).

(** [ce.Write(fields...)]: the cores that registered encode and write the
    entry, which panics on a field of unknown type; then the terminal
    action is taken. *)
Definition CheckedEntry_Write (ce : CheckedEntry) (fields : list Field)
  : M unit :=
  do _ <- emit (EvWrite (ce_logger ce) (ce_level ce) (ce_message ce) fields);
  if ce_cores ce && has_unknown_field fields then raise UnknownFieldType
  else match ce_should ce with
       | WriteThenNoop => ret tt
       | WriteThenPanic => raise (PanicRaised (ce_message ce))
       | WriteThenFatal => raise ProcessExit
       end.

(** [l.Debug], [l.Info], [l.Warn], [l.Error]: one emission call at the
    method's level. *)
Definition zap_log (lvl : Z) (h : positive) (msg : string)
  (fields : list Field) : M unit :=
  do _ <- zap_deref h;
  emit (EvLog h lvl msg fields).

Definition zap_Debug := zap_log DebugLevel.
Definition zap_Info := zap_log InfoLevel.
Definition zap_Warn := zap_log WarnLevel.
Definition zap_Error := zap_log ErrorLevel.

(** [l.DPanic(msg, fields...)]: one emission call at [DPanicLevel]; a
    logger in development mode panics afterwards. *)
Definition zap_DPanic (h : positive) (msg : string) (fields : list Field)
  : M unit :=
  do e <- zap_deref h;
  do _ <- emit (EvLog h DPanicLevel msg fields);
  if cfg_Development (zl_config e) then raise (DPanicRaised msg) else ret tt.

(** [l.Named(s)]: the receiver itself for an empty segment, otherwise a
    clone whose name has the segment appended after a dot. *)
Definition zap_Named (h : positive) (s : string) : M positive :=
  do e <- zap_deref h;
  if String.eqb s "" then ret h
  else zap_alloc {| zl_config := zl_config e;
                    zl_addStacktrace := zl_addStacktrace e;
                    zl_callerSkip := zl_callerSkip e;
                    zl_name := if String.eqb (zl_name e) "" then s
                               else zl_name e +:+ "." +:+ s;
                    zl_context := zl_context e |}.

(** [l.With(fields...)]: the receiver itself for no fields; otherwise the
    fields are added to the encoder of a clone of the core, which panics
    on a field of unknown type, and the clone is returned. *)
Definition zap_With (h : positive) (fields : list Field) : M positive :=
  do e <- zap_deref h;
  match fields with
  | [] => ret h
  | _ =>
      if has_unknown_field fields then raise UnknownFieldType
      else zap_alloc {| zl_config := zl_config e;
                        zl_addStacktrace := zl_addStacktrace e;
                        zl_callerSkip := zl_callerSkip e;
                        zl_name := zl_name e;
                        zl_context := zl_context e ++ fields |}
  end.

(** [zap.RedirectStdLog(l)]. *)
Definition zap_RedirectStdLog (h : positive) : M unit :=
  do _ <- zap_deref h;
  emit (EvRedirectStdLog h).

(** ** handleFields *)

(** The loop of [handleFields]: [rest] is [args[i:]], [fields] the slice
    built so far.  Every [break] returns [fields] as it stands. *)
Fixpoint handleFields_loop (l : positive) (rest : list iface)
  (fields : list Field) : M (list Field) :=
  match rest with
  | [] => ret fields
  | key :: rest' =>
      if is_FieldPtr key then
        do _ <- zap_DPanic l "Strongly-typed Zap Field pass to logz"
                  [zap_Any "zap field" key];
        ret fields
      else
        match rest' with
        | [] =>
            do _ <- zap_DPanic l
                      "add number of arguments passed as key-value pairs for logging."
                      [zap_Any "ignored key" key];
            ret fields
        | value :: rest'' =>
            match as_string key with
            | None =>
                do _ <- zap_DPanic l
                          "non-string key argument passed for logging"
                          [zap_Any "invalid key" key];
                ret fields
            | Some keyStr =>
                handleFields_loop l rest'' (fields ++ [zap_Any keyStr value])
            end
        end
  end.

(** [make([]zap.Field, n)]: a slice of [n] zero values. *)
Definition make_fields (n : nat) : list Field := replicate n zeroField.

Definition handleFields (l : positive) (args : list iface)
  (additional : list Field) : M (list Field) :=
  match args with
  | [] => ret additional
  | _ =>
      handleFields_loop l args
        (make_fields (length args / 2 + length additional))
  end.

(** ** The info-only loggers *)

(** [emptyInfoLogeer]: a struct without fields; its methods have empty
    bodies. *)
Definition emptyInfoLogeer_Info (_ : string) (_ : list Field) : M unit :=
  ret tt.
Definition emptyInfoLogeer_Infof (_ : string) (_ : list iface) : M unit :=
  ret tt.
Definition emptyInfoLogeer_Infow (_ : string) (_ : list iface) : M unit :=
  ret tt.
Definition emptyInfoLogeer_Enable : bool := false.

(** Values of the interface [InfoLogger]: the two implementations in the
    package.  An [infoLogger] is never written to after it is built, so
    the pointer is represented by the struct it points to. *)
Inductive InfoLogger : Type :=
| emptyInfoLogeerPtr
| infoLoggerPtr (il : infoLogger).

(** [var disabledInfoLogeer = &emptyInfoLogeer{}] *)
Definition disabledInfoLogeer : InfoLogger := emptyInfoLogeerPtr.

Section InfoLoggers.

(** [fmt.Sprintf], from the Go standard library. *)
Variable Sprintf : string -> list iface -> string.

Definition infoLogger_Info (l : infoLogger) (msg : string)
  (fields : list Field) : M unit :=
  do checkEntry <- zap_Check (log l) (level l) msg;
  match checkEntry with
  | Some ce => CheckedEntry_Write ce fields
  | None => ret tt
  end.

Definition infoLogger_Infof (l : infoLogger) (template : string)
  (args : list iface) : M unit :=
  do checkEntry <- zap_Check (log l) (level l) (Sprintf template args);
  match checkEntry with
  | Some ce => CheckedEntry_Write ce []
  | None => ret tt
  end.

Definition infoLogger_Infow (l : infoLogger) (msg : string)
  (keyAndValues : list iface) : M unit :=
  do checkEntry <- zap_Check (log l) (level l) msg;
  match checkEntry with
  | Some ce =>
      do fields <- handleFields (log l) keyAndValues [];
      CheckedEntry_Write ce fields
  | None => ret tt
  end.

Definition infoLogger_Enable (_ : infoLogger) : bool := true.

(** Method calls through the interface. *)
Definition InfoLogger_Info (i : InfoLogger) (msg : string)
  (fields : list Field) : M unit :=
  match i with
  | emptyInfoLogeerPtr => emptyInfoLogeer_Info msg fields
  | infoLoggerPtr il => infoLogger_Info il msg fields
  end.

Definition InfoLogger_Infof (i : InfoLogger) (template : string)
  (args : list iface) : M unit :=
  match i with
  | emptyInfoLogeerPtr => emptyInfoLogeer_Infof template args
  | infoLoggerPtr il => infoLogger_Infof il template args
  end.

Definition InfoLogger_Infow (i : InfoLogger) (msg : string)
  (keysAndValues : list iface) : M unit :=
  match i with
  | emptyInfoLogeerPtr => emptyInfoLogeer_Infow msg keysAndValues
  | infoLoggerPtr il => infoLogger_Infow il msg keysAndValues
  end.

Definition InfoLogger_Enable (i : InfoLogger) : bool :=
  match i with
  | emptyInfoLogeerPtr => emptyInfoLogeer_Enable
  | infoLoggerPtr il => infoLogger_Enable il
  end.

End InfoLoggers.

(** ** The full logger *)

(** Dereferencing a [*zapLogger]. *)
Definition log_deref (l : positive) : M zapLogger :=
  fun w => match logHeap w !! l with
           | Some s => (Ok s, w)
           | None => (Panic NilDereference, w)
           end.

(** Allocating a new [zapLogger]. *)
Definition log_alloc (s : zapLogger) : M positive :=
  fun w => let l := fresh (dom (logHeap w)) in
           (Ok l, {| zapHeap := zapHeap w; logHeap := <[l := s]> (logHeap w);
                     trace := trace w; unopenable := unopenable w;
                     sampler := sampler w |}).

Definition NewLogger (l : positive) : M positive :=
  log_alloc {| zapLogger_zapLogger := l;
               zapLogger_infoLogger := {| level := InfoLevel; log := l |} |}.

Definition zapLogger_V (l : positive) (level : Z) : M InfoLogger :=
  do s <- log_deref l;
  let lvl := zapcore_Level (int_mul (-1) level) in
  do enabled <- zap_Core_Enabled (zapLogger_zapLogger s) lvl;
  if enabled
  then ret (infoLoggerPtr {| level := lvl; log := zapLogger_zapLogger s |})
  else ret disabledInfoLogeer.

(** The Go [error] interface; nil is [None]. *)
Inductive error : Type := mkError (msg : string).

Definition zapLogger_Write (l : positive) (p : list Byte.byte)
  : M (Z * option error) :=
  do s <- log_deref l;
  do _ <- zap_Info (zapLogger_zapLogger s) (String.string_of_list_byte p) [];
  ret (Z.of_nat (length p), None).

Definition zapLogger_WithValue (l : positive) (keysAndValues : list iface)
  : M positive :=
  do s <- log_deref l;
  do fields <- handleFields (zapLogger_zapLogger s) keysAndValues [];
  do newLogger <- zap_With (zapLogger_zapLogger s) fields;
  NewLogger newLogger.

Definition zapLogger_WithName (l : positive) (s : string) : M positive :=
  do r <- log_deref l;
  do newLogger <- zap_Named (zapLogger_zapLogger r) s;
  NewLogger newLogger.

Definition zapLogger_Debug (l : positive) (msg : string)
  (fields : list Field) : M unit :=
  do s <- log_deref l;
  zap_Debug (zapLogger_zapLogger s) msg fields.

Definition zapLogger_Info (l : positive) (msg : string)
  (fields : list Field) : M unit :=
  do s <- log_deref l;
  zap_Info (zapLogger_zapLogger s) msg fields.

Definition zapLogger_Warn (l : positive) (msg : string)
  (fields : list Field) : M unit :=
  do s <- log_deref l;
  zap_Warn (zapLogger_zapLogger s) msg fields.

Definition zapLogger_Error (l : positive) (msg : string)
  (fields : list Field) : M unit :=
  do s <- log_deref l;
  zap_Error (zapLogger_zapLogger s) msg fields.

(** ** Construction *)

(** Modelled from the spec: the [Options] type is declared outside
    [src/log.go]; these are the fields [New] reads, as the configuration
    surface of the spec lists them. *)
Record Options : Type := {
  Level : string;
  Format : string;
  EnableColor : bool;
  Development : bool;
  DisableStacktrace : bool;
  DisableCaller : bool;
  OutputPaths : list string;
  ErrorOutputPaths : list string;
  Name : string
}.

(** Modelled from the spec: the constant [consoleFormat] is declared
    outside [src/log.go]; the spec names the two formats "console" and
    "json". *)
Definition consoleFormat : string := "console".

(** Lower-casing of ASCII text.  [bytes.ToLower] agrees with it on ASCII
    text; it stands for [bytes.ToLower] in the sample states, whose texts
    are ASCII. *)
Definition lower_ascii (c : ascii) : ascii :=
  let n := nat_of_ascii c in
  if ((65 <=? n) && (n <=? 90))%nat then ascii_of_nat (n + 32) else c.

Fixpoint ascii_ToLower (s : string) : string :=
  match s with
  | EmptyString => EmptyString
  | String c s' => String (lower_ascii c) (ascii_ToLower s')
  end.

(** The level names zap recognises, matched exactly; the empty text reads
    as info. *)
Definition unmarshalText (text : string) : option Z :=
  if String.eqb text "debug" || String.eqb text "DEBUG" then Some DebugLevel
  else if String.eqb text "info" || String.eqb text "INFO"
          || String.eqb text "" then Some InfoLevel
  else if String.eqb text "warn" || String.eqb text "WARN" then Some WarnLevel
  else if String.eqb text "error" || String.eqb text "ERROR"
       then Some ErrorLevel
  else if String.eqb text "dpanic" || String.eqb text "DPANIC"
       then Some DPanicLevel
  else if String.eqb text "panic" || String.eqb text "PANIC"
       then Some PanicLevel
  else if String.eqb text "fatal" || String.eqb text "FATAL"
       then Some FatalLevel
  else None.

(** [UnmarshalText] of [zapcore.Level]: the level read from the text, or an
    error ([None]) when neither the text nor its lower-case form is a
    level name.  [ToLower] is [bytes.ToLower] of Go's standard library,
    which lower-cases every Unicode letter; it is a parameter. *)
Definition UnmarshalText (ToLower : string -> string) (text : string)
  : option Z :=
  match unmarshalText text with
  | Some l => Some l
  | None => unmarshalText (ToLower text)
  end.

(** The encodings zap registers. *)
Definition encoder_registered (name : string) : bool :=
  String.eqb name "console" || String.eqb name "json".

(** [cfg.Build(zap.AddStacktrace(addStacktrace), zap.AddCallerSkip(skip))]:
    fails when the encoding is not registered or a sink cannot be opened,
    otherwise allocates the engine logger. *)
Definition zap_Config_Build (cfg : zap_Config) (addStacktrace skip : Z)
  : M (positive + error) :=
  fun w =>
    if negb (encoder_registered (cfg_Encoding cfg)) then
      (Ok (inr (mkError "no encoder registered")), w)
    else if existsb (fun p => bool_decide (p ∈ unopenable w))
                    (cfg_OutputPaths cfg ++ cfg_ErrorOutputPaths cfg) then
      (Ok (inr (mkError "couldn't open sink")), w)
    else
      bind (zap_alloc {| zl_config := cfg;
                         zl_addStacktrace := addStacktrace;
                         zl_callerSkip := skip;
                         zl_name := "";
                         zl_context := [] |})
           (fun h => ret (inl h)) w.

Section Construction.

(** [bytes.ToLower], from the Go standard library. *)
Variable ToLower : string -> string.

(** [NewOptions()], declared outside [src/log.go]: the default
    configuration. *)
Variable NewOptions : Options.

(** [New(opts)]; a nil [opts] is [None]. *)
Definition New (opts : option Options) : M positive :=
  let opts := match opts with
              | None => Some NewOptions
              | Some _ => opts
              end in
  do opts <- match opts with
             | Some o => ret o
             | None => raise NilDereference
             end;
  let zapLevel := match UnmarshalText ToLower (Level opts) with
                  | None => InfoLevel
                  | Some lvl => lvl
                  end in
  let encodeLevel :=
    if String.eqb (Format opts) consoleFormat && EnableColor opts
    then CapitalColorLevelEncoder else CapitalLevelEncoder in
  let encodeConfig := {|
    MessageKey := "message";
    LevelKey := "level";
    TimeKey := "timestamp";
    NameKey := "logger";
    CallerKey := String "009"%char "caller";
    StacktraceKey := "stacktrace";
    LineEnding := String "010"%char "";
    EncodeLevel := encodeLevel;
    EncodeTime := timeEncoder;
    EncodeDuration := milliSecondsDurationEncoder;
    EncodeCaller := ShortCallerEncoder |} in
  let loggerConfig := {|
    cfg_Level := zapLevel;
    cfg_Development := Development opts;
    cfg_DisableStacktrace := DisableStacktrace opts;
    cfg_DisableCaller := DisableCaller opts;
    cfg_Sampling := {| Initial := 100; Thereafter := 100 |};
    cfg_Encoding := Format opts;
    cfg_EncoderConfig := encodeConfig;
    cfg_OutputPaths := OutputPaths opts;
    cfg_ErrorOutputPaths := ErrorOutputPaths opts |} in
  do r <- zap_Config_Build loggerConfig PanicLevel 1;
  match r with
  | inr err => raise BuildFailed
  | inl l =>
      do named <- zap_Named l (Name opts);
      do logger <- log_alloc {|
        zapLogger_zapLogger := named;
        zapLogger_infoLogger := {| level := InfoLevel; log := l |} |};
      do _ <- zap_RedirectStdLog l;
      ret logger
  end.

End Construction.

(** ** Vocabulary of the statements *)

(** An argument list made of complete pairs whose keys are strings. *)
Fixpoint textual_pairs (args : list iface) : bool :=
  match args with
  | [] => true
  | IString _ :: _ :: rest => textual_pairs rest
  | _ => false
  end.

(** No element is a pre-built field. *)
Definition no_prebuilt_field (args : list iface) : bool :=
  forallb (fun v => negb (is_prebuilt_field v)) args.

(** The fields of the leading pairs of an argument list, in order. *)
Fixpoint pair_fields (args : list iface) : list Field :=
  match args with
  | IString k :: v :: rest => zap_Any k v :: pair_fields rest
  | _ => []
  end.

(** A field that was built, as opposed to a zero value. *)
Definition is_built (f : Field) : bool :=
  match Type_ f with UnknownType => false | _ => true end.

(** The state after one more call on the engine. *)
Definition record_call (e : Event) (w : World) : World :=
  {| zapHeap := zapHeap w; logHeap := logHeap w;
     trace := trace w ++ [e]; unopenable := unopenable w;
                      sampler := sampler w |}.

(** The outcome at a pre-built field [f] met after the pairs [pre], in
    the words of the specification: one diagnostic at [DPanicLevel] goes
    out, processing stops, and the fields accumulated from the earlier
    pairs are what the call returns. *)
Definition stops_and_keeps (l : positive) (w : World) (pre : list iface)
  (f : iface) (rest : list iface) : Prop :=
  exists d,
    emission_level d = Some DPanicLevel /\
    handleFields l (pre ++ f :: rest) [] w
      = (Ok (pair_fields pre), record_call d w).

(** What a computation lets an observer see: its outcome and the calls it
    adds to the trace. *)
Definition observe {A} (c : M A) (w : World) : outcome A * list Event :=
  (fst (c w), drop (length (trace w)) (trace (snd (c w)))).

(** The verbosity gate decided "enabled": [V] returned a real logger. *)
Definition gate_enabled (l : positive) (v : Z) (w : World) : bool :=
  match fst (zapLogger_V l v w) with
  | Ok (infoLoggerPtr _) => true
  | _ => false
  end.

(** Every object of [w] is still there, unchanged, in [w']. *)
Definition grows (w w' : World) : Prop :=
  (forall h e, zapHeap w !! h = Some e -> zapHeap w' !! h = Some e) /\
  (forall l s, logHeap w !! l = Some s -> logHeap w' !! l = Some s).

(** A computation that never changes or removes an object. *)
Definition monotone {A} (c : M A) : Prop := forall w, grows w (snd (c w)).

(** The logger object at [l] (its engine handle and its bound level) and
    the engine objects it points to are the same in [w'] as in [w]. *)
Definition logger_preserved (l : positive) (w w' : World) : Prop :=
  forall s, logHeap w !! l = Some s ->
    logHeap w' !! l = Some s /\
    (forall e, zapHeap w !! zapLogger_zapLogger s = Some e ->
               zapHeap w' !! zapLogger_zapLogger s = Some e) /\
    (forall e, zapHeap w !! log (zapLogger_infoLogger s) = Some e ->
               zapHeap w' !! log (zapLogger_infoLogger s) = Some e).

(** The logger at [l] answers every call in [w'] as it does in [w]. *)
Definition same_behaviour (l : positive) (w w' : World) : Prop :=
  (forall msg fields,
      observe (zapLogger_Debug l msg fields) w'
        = observe (zapLogger_Debug l msg fields) w /\
      observe (zapLogger_Info l msg fields) w'
        = observe (zapLogger_Info l msg fields) w /\
      observe (zapLogger_Warn l msg fields) w'
        = observe (zapLogger_Warn l msg fields) w /\
      observe (zapLogger_Error l msg fields) w'
        = observe (zapLogger_Error l msg fields) w) /\
  (forall p, observe (zapLogger_Write l p) w'
             = observe (zapLogger_Write l p) w) /\
  (forall v, observe (zapLogger_V l v) w' = observe (zapLogger_V l v) w).

(** [opts] with its level text replaced. *)
Definition with_Level (text : string) (opts : Options) : Options :=
  {| Level := text; Format := Format opts; EnableColor := EnableColor opts;
     Development := Development opts;
     DisableStacktrace := DisableStacktrace opts;
     DisableCaller := DisableCaller opts;
     OutputPaths := OutputPaths opts;
     ErrorOutputPaths := ErrorOutputPaths opts;
     Name := Name opts |}.

(** The engine can build a logger for [opts]: the encoding is registered
    and every sink opens. *)
Definition buildable (opts : Options) (w : World) : bool :=
  encoder_registered (Format opts)
  && negb (existsb (fun p => bool_decide (p ∈ unopenable w))
             (OutputPaths opts ++ ErrorOutputPaths opts)).

(** The level [New] hands to the engine for a level text. *)
Definition level_of_text (ToLower : string -> string) (text : string) : Z :=
  match UnmarshalText ToLower text with
  | None => InfoLevel
  | Some lvl => lvl
  end.

(** ** Sample states *)

Definition sample_options (lvl : string) (dev : bool) : Options :=
  {| Level := lvl; Format := "json"; EnableColor := false;
     Development := dev; DisableStacktrace := false; DisableCaller := false;
     OutputPaths := ["stdout"]; ErrorOutputPaths := ["stderr"];
     Name := "" |}.

Definition empty_world : World :=
  {| zapHeap := ∅; logHeap := ∅; trace := []; unopenable := [];
     sampler := fun _ => true |}.

(** The state after [New] built a logger from [sample_options], and the
    logger it returned. *)
Definition sample_world (lvl : string) (dev : bool) : World :=
  snd (New ascii_ToLower (sample_options "info" false)
         (Some (sample_options lvl dev))
         empty_world).

Definition sample_logger : positive := 1%positive.
Definition sample_engine : positive := 1%positive.

(** The engine logger [Build] allocates for [sample_options] whose level
    text reads as [lvl]. *)
Definition sample_zap_Logger (lvl : Z) (dev : bool) : zap_Logger :=
  {| zl_config := {|
       cfg_Level := lvl;
       cfg_Development := dev;
       cfg_DisableStacktrace := false;
       cfg_DisableCaller := false;
       cfg_Sampling := {| Initial := 100; Thereafter := 100 |};
       cfg_Encoding := "json";
       cfg_EncoderConfig := {|
         MessageKey := "message";
         LevelKey := "level";
         TimeKey := "timestamp";
         NameKey := "logger";
         CallerKey := String "009"%char "caller";
         StacktraceKey := "stacktrace";
         LineEnding := String "010"%char "";
         EncodeLevel := CapitalLevelEncoder;
         EncodeTime := timeEncoder;
         EncodeDuration := milliSecondsDurationEncoder;
         EncodeCaller := ShortCallerEncoder |};
       cfg_OutputPaths := ["stdout"];
       cfg_ErrorOutputPaths := ["stderr"] |};
     zl_addStacktrace := PanicLevel;
     zl_callerSkip := 1;
     zl_name := "";
     zl_context := [] |}.

Definition sample_Sprintf (template : string) (_ : list iface) : string :=
  template.

(** ** Vocabulary of the further properties *)

(** What [handleFields] returns for a non-empty argument list when it
    returns: the slice [make] filled with zero values, then one field per
    leading well-formed pair. *)
Definition normalized (args : list iface) (additional : list Field)
  : list Field :=
  make_fields (length args / 2 + length additional) ++ pair_fields args.

(** [w'] differs from [w] by at most one call on the engine, a diagnostic
    at [DPanicLevel] on the logger [l]. *)
Definition at_most_one_diagnostic (l : positive) (w w' : World) : Prop :=
  zapHeap w' = zapHeap w /\
  logHeap w' = logHeap w /\
  unopenable w' = unopenable w /\
  (trace w' = trace w \/
   exists msg fs, trace w' = trace w ++ [EvLog l DPanicLevel msg fs]).

(** The configuration [New] hands to [Build] for [opts]. *)
Definition config_of_options (ToLower : string -> string) (opts : Options)
  : zap_Config :=
  {| cfg_Level := level_of_text ToLower (Level opts);
     cfg_Development := Development opts;
     cfg_DisableStacktrace := DisableStacktrace opts;
     cfg_DisableCaller := DisableCaller opts;
     cfg_Sampling := {| Initial := 100; Thereafter := 100 |};
     cfg_Encoding := Format opts;
     cfg_EncoderConfig := {|
       MessageKey := "message";
       LevelKey := "level";
       TimeKey := "timestamp";
       NameKey := "logger";
       CallerKey := String "009"%char "caller";
       StacktraceKey := "stacktrace";
       LineEnding := String "010"%char "";
       EncodeLevel :=
         if String.eqb (Format opts) consoleFormat && EnableColor opts
         then CapitalColorLevelEncoder else CapitalLevelEncoder;
       EncodeTime := timeEncoder;
       EncodeDuration := milliSecondsDurationEncoder;
       EncodeCaller := ShortCallerEncoder |};
     cfg_OutputPaths := OutputPaths opts;
     cfg_ErrorOutputPaths := ErrorOutputPaths opts |}.

(** The engine logger [Build] allocates for [opts]. *)
Definition built_logger (ToLower : string -> string) (opts : Options)
  : zap_Logger :=
  {| zl_config := config_of_options ToLower opts;
     zl_addStacktrace := PanicLevel;
     zl_callerSkip := 1;
     zl_name := "";
     zl_context := [] |}.

(** A console configuration with colours and a logger name. *)
Definition console_options : Options :=
  {| Level := "WARN"; Format := "console"; EnableColor := true;
     Development := true; DisableStacktrace := true; DisableCaller := false;
     OutputPaths := ["stdout"; "/var/log/app.log"];
     ErrorOutputPaths := ["stderr"];
     Name := "api" |}.

(** The level text handed to [sample_zap_Logger] by [sample_world]. *)
Definition sample_struct : zapLogger :=
  {| zapLogger_zapLogger := sample_engine;
     zapLogger_infoLogger := {| level := InfoLevel; log := sample_engine |} |}.

(** [handleFields] on [args] stopped after the pairs [pre] with the
    diagnostic [msg], [fs]: the call is the only one made, and the result
    holds the zero values and the fields of [pre] (in development mode the
    engine panics instead of returning). *)
Definition stopped_after (l : positive) (e : zap_Logger) (w : World)
  (args : list iface) (additional : list Field) (pre : list iface)
  (msg : string) (fs : list Field) : Prop :=
  handleFields l args additional w =
    (if cfg_Development (zl_config e) then Panic (DPanicRaised msg)
     else Ok (make_fields (length args / 2 + length additional)
                ++ pair_fields pre),
     record_call (EvLog l DPanicLevel msg fs) w).

(** [built_logger opts] after [Named(s)] for a non-empty [s]. *)
Definition named_logger (ToLower : string -> string) (opts : Options)
  : zap_Logger :=
  {| zl_config := config_of_options ToLower opts;
     zl_addStacktrace := PanicLevel;
     zl_callerSkip := 1;
     zl_name := Name opts;
     zl_context := [] |}.

(** The name [Named(s)] gives to a logger called [name]. *)
Definition joined_name (name s : string) : string :=
  if String.eqb s "" then name
  else if String.eqb name "" then s else name +:+ "." +:+ s.

(** * Properties *)

(** ** Running computations *)

Lemma bind_ok {A B} (c : M A) (k : A -> M B) w a w' :
  c w = (Ok a, w') -> bind c k w = k a w'.
Proof. intros H. unfold bind. now rewrite H. Qed.

Lemma bind_panic {A B} (c : M A) (k : A -> M B) w p w' :
  c w = (Panic p, w') -> bind c k w = (Panic p, w').
Proof. intros H. unfold bind. now rewrite H. Qed.

Lemma zap_deref_ok h e w : zapHeap w !! h = Some e -> zap_deref h w = (Ok e, w).
Proof. intros H. unfold zap_deref. now rewrite H. Qed.

Lemma log_deref_ok l s w : logHeap w !! l = Some s -> log_deref l w = (Ok s, w).
Proof. intros H. unfold log_deref. now rewrite H. Qed.

Lemma emit_run e w : emit e w = (Ok tt, record_call e w).
Proof. reflexivity. Qed.

Lemma zap_DPanic_run h e w msg fs :
  zapHeap w !! h = Some e ->
  zap_DPanic h msg fs w =
    (if cfg_Development (zl_config e) then Panic (DPanicRaised msg) else Ok tt,
     record_call (EvLog h DPanicLevel msg fs) w).
Proof.
  intros H. unfold zap_DPanic.
  rewrite (bind_ok _ _ _ _ _ (zap_deref_ok _ _ _ H)).
  rewrite (bind_ok _ _ _ _ _ (emit_run _ _)).
  now destruct (cfg_Development (zl_config e)).
Qed.

Lemma zap_log_run lvl h e w msg fs :
  zapHeap w !! h = Some e ->
  zap_log lvl h msg fs w = (Ok tt, record_call (EvLog h lvl msg fs) w).
Proof.
  intros H. unfold zap_log.
  now rewrite (bind_ok _ _ _ _ _ (zap_deref_ok _ _ _ H)).
Qed.

Lemma zap_Core_Enabled_run h e w lvl :
  zapHeap w !! h = Some e ->
  zap_Core_Enabled h lvl w =
    (Ok (cfg_Level (zl_config e) <=? lvl), record_call (EvEnabled h lvl) w).
Proof.
  intros H. unfold zap_Core_Enabled.
  now rewrite (bind_ok _ _ _ _ _ (zap_deref_ok _ _ _ H)).
Qed.

(** A break of the loop: the diagnostic goes out and the slice built so
    far is what the function returns, unless the engine panics. *)
Lemma break_run h e w msg fs (fields : list Field) :
  zapHeap w !! h = Some e ->
  (do _ <- zap_DPanic h msg fs; ret fields) w =
    (if cfg_Development (zl_config e)
     then Panic (DPanicRaised msg) else Ok fields,
     record_call (EvLog h DPanicLevel msg fs) w).
Proof.
  intros H. unfold bind. rewrite (zap_DPanic_run _ _ _ _ _ H).
  now destruct (cfg_Development (zl_config e)).
Qed.

(** ** The field normalizer *)

(** Induction over an argument list two elements at a time. *)
Lemma pairs_ind (P : list iface -> Prop) :
  P [] -> (forall a, P [a]) ->
  (forall a b rest, P rest -> P (a :: b :: rest)) ->
  forall args, P args.
Proof.
  intros H0 H1 H2.
  assert (both : forall args, P args /\ forall a, P (a :: args)).
  { induction args as [|b args [IH IH']]; split; auto. }
  intros args. apply both.
Qed.

Lemma length_pair_fields args :
  textual_pairs args = true -> length (pair_fields args) = (length args / 2)%nat.
Proof.
  induction args as [|a|a b rest IH] using pairs_ind; intros H.
  - reflexivity.
  - now destruct a.
  - destruct a; try discriminate. simpl in H.
    change (length (IString s :: b :: rest)) with (2 + length rest)%nat.
    replace (2 + length rest)%nat with (length rest + 1 * 2)%nat by lia.
    rewrite Nat.div_add by lia. cbn [pair_fields length].
    rewrite (IH H). lia.
Qed.

(** Over a prefix of well-formed pairs the loop appends one field per
    pair and carries on with what follows. *)
Lemma handleFields_loop_textual l pre rest acc w :
  textual_pairs pre = true ->
  handleFields_loop l (pre ++ rest) acc w
    = handleFields_loop l rest (acc ++ pair_fields pre) w.
Proof.
  revert acc.
  induction pre as [|a|a b pre IH] using pairs_ind; intros acc H.
  - simpl. now rewrite app_nil_r.
  - now destruct a.
  - destruct a; try discriminate. simpl in H. simpl.
    rewrite (IH _ H). now rewrite <- app_assoc.
Qed.

(** The result on an argument list of well-formed pairs: the zero values
    [make] put in the slice, then one field per pair. *)
Lemma handleFields_textual l args w :
  textual_pairs args = true -> args <> [] ->
  handleFields l args [] w
    = (Ok (make_fields (length args / 2) ++ pair_fields args), w).
Proof.
  intros H Hne. unfold handleFields.
  destruct args as [|a args]; [congruence|].
  rewrite <- (app_nil_r (a :: args)) at 1.
  rewrite (handleFields_loop_textual _ _ _ _ _ H).
  simpl length. now rewrite Nat.add_0_r.
Qed.

Lemma handleFields_textual_length l args w fields :
  textual_pairs args = true -> args <> [] ->
  fst (handleFields l args [] w) = Ok fields ->
  length fields = (length args / 2 + length args / 2)%nat.
Proof.
  intros H Hne. rewrite (handleFields_textual _ _ _ H Hne). simpl.
  intros [= <-]. rewrite length_app, (length_pair_fields _ H).
  unfold make_fields. now rewrite length_replicate.
Qed.

(** A field built by [zap.Any] carries its key and its value, and is never
    the zero value. *)
Lemma zap_Any_carries k v :
  Key (zap_Any k v) = k /\ field_value (zap_Any k v) = v.
Proof. destruct v as [| | |[]| |]; split; reflexivity. Qed.

Lemma zap_Any_not_zero k v : Type_ (zap_Any k v) <> Type_ zeroField.
Proof. destruct v; discriminate. Qed.

(** The fields appended for well-formed pairs are the right ones: the
    [i]-th carries key [args[2i]] and value [args[2i+1]]. *)
Lemma pair_fields_lookup args :
  textual_pairs args = true ->
  forall (i : nat) f,
    pair_fields args !! i = Some f ->
    args !! (2 * i)%nat = Some (IString (Key f)) /\
    args !! (2 * i + 1)%nat = Some (field_value f).
Proof.
  induction args as [|a|a b rest IH] using pairs_ind; intros H i f Hf.
  - discriminate.
  - now destruct a.
  - destruct a; try discriminate. simpl in H.
    destruct i as [|i].
    + injection Hf as <-. destruct (zap_Any_carries s b) as [-> ->].
      split; reflexivity.
    + replace (2 * S i)%nat with (S (S (2 * i))) by lia.
      exact (IH H i f Hf).
Qed.

(** The loop at a pre-built field, by value or by pointer. *)
Lemma handleFields_loop_prebuilt l e w f rest acc :
  zapHeap w !! l = Some e ->
  is_prebuilt_field f = true ->
  exists msg fs,
    handleFields_loop l (f :: rest) acc w =
      (if cfg_Development (zl_config e)
       then Panic (DPanicRaised msg) else Ok acc,
       record_call (EvLog l DPanicLevel msg fs) w).
Proof.
  intros Hl Hf. destruct f as [| | | |f|f]; try discriminate.
  - destruct rest as [|v rest]; do 2 eexists; simpl;
      apply (break_run _ _ _ _ _ _ Hl).
  - do 2 eexists. simpl. apply (break_run _ _ _ _ _ _ Hl).
Qed.

(** C1 (the code departs from the claim).  For the one-pair argument list
    ["k", "v"], which is of even length, has a textual key and holds no
    pre-built field, [handleFields] with an empty additional list returns
    two fields, not [len(args)/2 = 1]: the zero-valued field [make] put in
    the slice, followed by the field of the pair. *)
Theorem handleFields_one_pair_returns_two_fields :
  forall l w,
    let args := [IString "k"; IString "v"] in
    textual_pairs args = true /\
    no_prebuilt_field args = true /\
    handleFields l args [] w
      = (Ok [zeroField; zap_Any "k" (IString "v")], w) /\
    length [zeroField; zap_Any "k" (IString "v")] <> (length args / 2)%nat.
Proof.
  intros l w args. repeat split; try reflexivity.
  subst args. simpl. lia.
Qed.

(** C2 (the code departs from the claim).  On a production logger, the
    odd-length list ["region", "us-east", "count"] makes [handleFields]
    emit one diagnostic for the unpaired key, as claimed, but the result
    holds two fields, not one: a zero-valued field precedes
    [{region: "us-east"}]. *)
Theorem handleFields_region_count_returns_two_fields :
  let args := [IString "region"; IString "us-east"; IString "count"] in
  let w := sample_world "info" false in
  handleFields sample_engine args [] w
    = (Ok [zeroField; zap_Any "region" (IString "us-east")],
       record_call
         (EvLog sample_engine DPanicLevel
            "add number of arguments passed as key-value pairs for logging."
            [zap_Any "ignored key" (IString "count")]) w).
Proof. vm_compute. reflexivity. Qed.

(** The part of C2 the code does satisfy, for every odd-length list with
    well-formed leading pairs: one diagnostic, no field from the unpaired
    element, and the fields of the leading pairs at the end of the
    result. *)
Lemma handleFields_odd l e w pre k :
  zapHeap w !! l = Some e ->
  textual_pairs pre = true ->
  exists msg fs,
    handleFields l (pre ++ [k]) [] w =
      (if cfg_Development (zl_config e) then Panic (DPanicRaised msg)
       else Ok (make_fields (length (pre ++ [k]) / 2) ++ pair_fields pre),
       record_call (EvLog l DPanicLevel msg fs) w).
Proof.
  intros Hl Hpre.
  assert (Hne : exists a args, pre ++ [k] = a :: args)
    by (destruct pre; simpl; eauto).
  destruct Hne as (a & args & Hne).
  unfold handleFields. rewrite Hne, <- Hne. clear a args Hne.
  rewrite (handleFields_loop_textual _ _ _ _ _ Hpre), Nat.add_0_r.
  destruct (is_FieldPtr k) eqn:Hk; do 2 eexists; simpl; rewrite Hk;
    apply (break_run _ _ _ _ _ _ Hl).
Qed.

(** The run of [handleFields] up to a pre-built field at a key position,
    passed by value or by pointer, after the well-formed pairs [pre]. *)
Lemma handleFields_prebuilt_field_run l e w pre f rest :
  zapHeap w !! l = Some e ->
  textual_pairs pre = true ->
  is_prebuilt_field f = true ->
  exists msg fs,
    handleFields l (pre ++ f :: rest) [] w =
      (if cfg_Development (zl_config e) then Panic (DPanicRaised msg)
       else Ok (make_fields (length (pre ++ f :: rest) / 2)
                  ++ pair_fields pre),
       record_call (EvLog l DPanicLevel msg fs) w).
Proof.
  intros Hl Hpre Hf.
  assert (Hne : exists a args, pre ++ f :: rest = a :: args)
    by (destruct pre; simpl; eauto).
  destruct Hne as (a & args & Hne).
  destruct (handleFields_loop_prebuilt l e w f rest
              (make_fields (length (pre ++ f :: rest) / 2) ++ pair_fields pre)
              Hl Hf) as (msg & fs & Hrun).
  exists msg, fs.
  unfold handleFields. rewrite Hne, <- Hne.
  rewrite (handleFields_loop_textual _ _ _ _ _ Hpre), Nat.add_0_r.
  exact Hrun.
Qed.

(** The fields that were built in a result of [handleFields] are the
    fields of the pairs. *)
Lemma filter_is_built_result n args :
  List.filter is_built (make_fields n ++ pair_fields args) = pair_fields args.
Proof.
  rewrite List.filter_app.
  assert (Hz : List.filter is_built (make_fields n) = []).
  { unfold make_fields. induction n as [|n IH]; [reflexivity|]. exact IH. }
  rewrite Hz. simpl.
  induction args as [|a|a b rest IH] using pairs_ind.
  - reflexivity.
  - now destruct a.
  - destruct a; try reflexivity. simpl. rewrite IH.
    now destruct b.
Qed.

(** C3, a counterexample to the claim as stated: on a development logger
    the call does not return at a pre-built field; after the diagnostic
    the engine panics, so no field of the earlier pair is kept. *)
Lemma handleFields_prebuilt_field_development_keeps_nothing :
  ~ stops_and_keeps sample_engine (sample_world "info" true)
      [IString "a"; IInt 1] (IFieldPtr (zap_Any "b" (IInt 2))) [IInt 5].
Proof.
  intros (d & _ & H). vm_compute in H. discriminate.
Qed.

(** C3 (amended).  When the scan reaches a pre-built field at a key
    position (the pairs before it being well-formed), whether the field
    was passed by value or by pointer, [handleFields] makes exactly one
    call on the engine, a diagnostic at [DPanicLevel], and stops there.
    On a development logger the engine then panics.  Otherwise the call
    returns, and the fields built in the result are exactly those of the
    earlier pairs, in order: nothing is made from the field or from what
    follows it. *)
Theorem handleFields_prebuilt_field_one_diagnostic :
  forall l e w pre f rest,
    zapHeap w !! l = Some e ->
    textual_pairs pre = true ->
    is_prebuilt_field f = true ->
    exists msg fs,
      emission_level (EvLog l DPanicLevel msg fs) = Some DPanicLevel /\
      trace (record_call (EvLog l DPanicLevel msg fs) w)
        = trace w ++ [EvLog l DPanicLevel msg fs] /\
      if cfg_Development (zl_config e) then
        handleFields l (pre ++ f :: rest) [] w
          = (Panic (DPanicRaised msg),
             record_call (EvLog l DPanicLevel msg fs) w)
      else
        exists fields,
          handleFields l (pre ++ f :: rest) [] w
            = (Ok fields, record_call (EvLog l DPanicLevel msg fs) w) /\
          List.filter is_built fields = pair_fields pre.
Proof.
  intros l e w pre f rest Hl Hpre Hf.
  destruct (handleFields_prebuilt_field_run l e w pre f rest Hl Hpre Hf)
    as (msg & fs & Hrun).
  exists msg, fs. split; [reflexivity|]. split; [reflexivity|].
  destruct (cfg_Development (zl_config e)); [exact Hrun|].
  eexists. split; [exact Hrun|]. apply filter_is_built_result.
Qed.

Lemma handleFields_prebuilt_field_one_diagnostic_witness :
  zapHeap (sample_world "info" false) !! sample_engine
    = Some (sample_zap_Logger InfoLevel false) /\
  textual_pairs [IString "a"; IInt 1] = true /\
  is_prebuilt_field (IField (zap_Any "b" (IInt 2))) = true /\
  exists msg fs,
    emission_level (EvLog sample_engine DPanicLevel msg fs)
      = Some DPanicLevel /\
    trace (record_call (EvLog sample_engine DPanicLevel msg fs)
             (sample_world "info" false))
      = trace (sample_world "info" false)
          ++ [EvLog sample_engine DPanicLevel msg fs] /\
    if cfg_Development (zl_config (sample_zap_Logger InfoLevel false)) then
      handleFields sample_engine
        ([IString "a"; IInt 1] ++ IField (zap_Any "b" (IInt 2)) :: [IInt 5])
        [] (sample_world "info" false)
        = (Panic (DPanicRaised msg),
           record_call (EvLog sample_engine DPanicLevel msg fs)
             (sample_world "info" false))
    else
      exists fields,
        handleFields sample_engine
          ([IString "a"; IInt 1] ++ IField (zap_Any "b" (IInt 2)) :: [IInt 5])
          [] (sample_world "info" false)
          = (Ok fields,
             record_call (EvLog sample_engine DPanicLevel msg fs)
               (sample_world "info" false)) /\
        List.filter is_built fields = pair_fields [IString "a"; IInt 1].
Proof.
  split; [vm_compute; reflexivity|].
  split; [reflexivity|]. split; [reflexivity|].
  apply (handleFields_prebuilt_field_one_diagnostic sample_engine
           (sample_zap_Logger InfoLevel false) (sample_world "info" false)
           [IString "a"; IInt 1] (IField (zap_Any "b" (IInt 2))) [IInt 5]);
    [vm_compute; reflexivity | reflexivity | reflexivity].
Defined.

(** C4.  With an empty argument list [handleFields] returns the additional
    list as it was given, makes no call on the engine and cannot panic,
    whatever the logger handle; with both lists empty the result is
    empty. *)
Theorem handleFields_empty_args :
  (forall l additional w,
      handleFields l [] additional w = (Ok additional, w)) /\
  (forall l w, handleFields l [] [] w = (Ok [], w)).
Proof. split; reflexivity. Qed.

(** ** The verbosity gate *)

(** Up to 128 the conversion to [zapcore.Level] is exact. *)
Lemma zapcore_Level_neg v :
  0 <= v <= 128 -> zapcore_Level (int_mul (-1) v) = - v.
Proof.
  intros Hv. unfold zapcore_Level, int_mul, int, wrap.
  change (2 ^ (64 - 1)) with 9223372036854775808.
  change (2 ^ 64) with 18446744073709551616.
  change (2 ^ (8 - 1)) with 128. change (2 ^ 8) with 256.
  rewrite (Z.mod_small (-1 * v + 9223372036854775808)) by lia.
  rewrite Z.mod_small by lia. lia.
Qed.

Lemma zapLogger_V_run l s e w v :
  logHeap w !! l = Some s ->
  zapHeap w !! zapLogger_zapLogger s = Some e ->
  zapLogger_V l v w =
    (Ok (if cfg_Level (zl_config e) <=? zapcore_Level (int_mul (-1) v)
         then infoLoggerPtr {| level := zapcore_Level (int_mul (-1) v);
                               log := zapLogger_zapLogger s |}
         else disabledInfoLogeer),
     record_call
       (EvEnabled (zapLogger_zapLogger s) (zapcore_Level (int_mul (-1) v))) w).
Proof.
  intros Hl He. unfold zapLogger_V.
  rewrite (bind_ok _ _ _ _ _ (log_deref_ok _ _ _ Hl)).
  rewrite (bind_ok _ _ _ _ _ (zap_Core_Enabled_run _ _ _ _ He)).
  now destruct (cfg_Level (zl_config e) <=? _).
Qed.

(** X9.  Where the conversion is exact the gate is monotone: for
    verbosities from 0 to 128, on any logger and in any state, a verbosity
    that is enabled leaves every smaller one enabled. *)
Lemma V_monotone_up_to_128 l w v1 v2 :
  0 <= v1 -> v1 < v2 -> v2 <= 128 ->
  gate_enabled l v2 w = true -> gate_enabled l v1 w = true.
Proof.
  intros H0 H12 H2. unfold gate_enabled, zapLogger_V.
  destruct (logHeap w !! l) as [s|] eqn:Hl.
  2: { unfold bind, log_deref. now rewrite Hl. }
  rewrite !(bind_ok _ _ _ _ _ (log_deref_ok _ _ _ Hl)).
  destruct (zapHeap w !! zapLogger_zapLogger s) as [e|] eqn:He.
  2: { unfold bind, zap_Core_Enabled, bind, zap_deref. now rewrite He. }
  rewrite !(bind_ok _ _ _ _ _ (zap_Core_Enabled_run _ _ _ _ He)).
  rewrite !zapcore_Level_neg by lia.
  destruct (cfg_Level (zl_config e) <=? - v2) eqn:E2; [|discriminate].
  intros _. apply Z.leb_le in E2.
  assert (E1 : (cfg_Level (zl_config e) <=? - v1) = true)
    by (apply Z.leb_le; lia).
  now rewrite E1.
Qed.

(** C5 (the code departs from the claim).  On a logger built at the info
    level, verbosity 256 is enabled while the smaller verbosity 1 is not:
    [zapcore.Level(-256)] wraps to [InfoLevel]. *)
Theorem V_256_enabled_V_1_disabled :
  let w := sample_world "info" false in
  0 <= 1 < 256 /\
  fst (zapLogger_V sample_logger 256 w)
    = Ok (infoLoggerPtr {| level := InfoLevel; log := sample_engine |}) /\
  fst (zapLogger_V sample_logger 1 w) = Ok disabledInfoLogeer /\
  gate_enabled sample_logger 256 w = true /\
  gate_enabled sample_logger 1 w = false.
Proof. split; [lia|]. repeat split; vm_compute; reflexivity. Qed.

(** C6.  When the engine reports level [-V] as not enabled, [V] returns
    the shared [disabledInfoLogeer]; its [Enable] is false, and its
    [Info], [Infof] and [Infow] return at once, leaving the whole state
    (heaps and trace of engine calls) as it was. *)
Theorem V_disabled_returns_noop_logger :
  forall Sprintf l s w v,
    logHeap w !! l = Some s ->
    fst (zap_Core_Enabled (zapLogger_zapLogger s)
           (zapcore_Level (int_mul (-1) v)) w) = Ok false ->
    fst (zapLogger_V l v w) = Ok disabledInfoLogeer /\
    InfoLogger_Enable disabledInfoLogeer = false /\
    forall msg fields template args keysAndValues w',
      InfoLogger_Info disabledInfoLogeer msg fields w' = (Ok tt, w') /\
      InfoLogger_Infof Sprintf disabledInfoLogeer template args w'
        = (Ok tt, w') /\
      InfoLogger_Infow disabledInfoLogeer msg keysAndValues w' = (Ok tt, w').
Proof.
  intros Sprintf l s w v Hl Hen. split; [|split; [reflexivity|]].
  - unfold zapLogger_V.
    rewrite (bind_ok _ _ _ _ _ (log_deref_ok _ _ _ Hl)).
    destruct (zap_Core_Enabled _ _ w) as [[b|p] w1] eqn:E;
      simpl in Hen; [|discriminate].
    injection Hen as ->.
    now rewrite (bind_ok _ _ _ _ _ E).
  - intros. repeat split.
Qed.

Lemma V_disabled_returns_noop_logger_witness :
  logHeap (sample_world "info" false) !! sample_logger
    = Some {| zapLogger_zapLogger := sample_engine;
              zapLogger_infoLogger :=
                {| level := InfoLevel; log := sample_engine |} |} /\
  fst (zap_Core_Enabled sample_engine (zapcore_Level (int_mul (-1) 2))
         (sample_world "info" false)) = Ok false /\
  fst (zapLogger_V sample_logger 2 (sample_world "info" false))
    = Ok disabledInfoLogeer /\
  InfoLogger_Enable disabledInfoLogeer = false /\
  InfoLogger_Info disabledInfoLogeer "up" [zap_Any "n" (IInt 1)]
    (sample_world "info" false) = (Ok tt, sample_world "info" false) /\
  InfoLogger_Infof sample_Sprintf disabledInfoLogeer "up %d" [IInt 1]
    (sample_world "info" false) = (Ok tt, sample_world "info" false) /\
  InfoLogger_Infow disabledInfoLogeer "up" [IString "n"; IInt 1]
    (sample_world "info" false) = (Ok tt, sample_world "info" false).
Proof.
  split; [vm_compute; reflexivity|]. split; [vm_compute; reflexivity|].
  destruct (V_disabled_returns_noop_logger sample_Sprintf sample_logger
              {| zapLogger_zapLogger := sample_engine;
                 zapLogger_infoLogger :=
                   {| level := InfoLevel; log := sample_engine |} |}
              (sample_world "info" false) 2) as (HV & HE & Hcalls);
    [vm_compute; reflexivity | vm_compute; reflexivity |].
  split; [exact HV|]. split; [exact HE|].
  exact (Hcalls "up" [zap_Any "n" (IInt 1)] "up %d" [IInt 1]
           [IString "n"; IInt 1] (sample_world "info" false)).
Defined.

(** ** Write *)

(** C7.  On a logger whose engine handle is live, [Write] returns
    [(len(p), nil)] for every byte sequence [p], whatever the engine's
    configuration, and so whether or not the engine lets the record
    through. *)
Theorem Write_returns_length_and_nil :
  forall l s e w (p : list Byte.byte),
    logHeap w !! l = Some s ->
    zapHeap w !! zapLogger_zapLogger s = Some e ->
    fst (zapLogger_Write l p w) = Ok (Z.of_nat (length p), None).
Proof.
  intros l s e w p Hl He. unfold zapLogger_Write, zap_Info.
  rewrite (bind_ok _ _ _ _ _ (log_deref_ok _ _ _ Hl)).
  now rewrite (bind_ok _ _ _ _ _ (zap_log_run _ _ _ _ _ _ He)).
Qed.

Lemma Write_returns_length_and_nil_witness :
  logHeap (sample_world "fatal" false) !! sample_logger
    = Some {| zapLogger_zapLogger := sample_engine;
              zapLogger_infoLogger :=
                {| level := InfoLevel; log := sample_engine |} |} /\
  zapHeap (sample_world "fatal" false) !! sample_engine
    = Some (sample_zap_Logger FatalLevel false) /\
  fst (zapLogger_Write sample_logger [Byte.x68; Byte.x69]
         (sample_world "fatal" false))
    = Ok (Z.of_nat (length [Byte.x68; Byte.x69]), None).
Proof.
  split; [vm_compute; reflexivity|]. split; [vm_compute; reflexivity|].
  apply (Write_returns_length_and_nil sample_logger
           {| zapLogger_zapLogger := sample_engine;
              zapLogger_infoLogger :=
                {| level := InfoLevel; log := sample_engine |} |}
           (sample_zap_Logger FatalLevel false));
    vm_compute; reflexivity.
Defined.

(** ** Derivation *)

Lemma grows_refl w : grows w w.
Proof. split; auto. Qed.

Lemma grows_trans w1 w2 w3 : grows w1 w2 -> grows w2 w3 -> grows w1 w3.
Proof. intros [A B] [C D]. split; auto. Qed.

Lemma monotone_ret {A} (a : A) : monotone (ret a).
Proof. intros w. apply grows_refl. Qed.

Lemma monotone_raise {A} p : monotone (@raise A p).
Proof. intros w. apply grows_refl. Qed.

Lemma monotone_bind {A B} (c : M A) (k : A -> M B) :
  monotone c -> (forall a, monotone (k a)) -> monotone (bind c k).
Proof.
  intros Hc Hk w. unfold bind. specialize (Hc w).
  destruct (c w) as [[a|p] w1]; simpl in *; [|exact Hc].
  eapply grows_trans; [exact Hc | apply Hk].
Qed.

Lemma monotone_emit e : monotone (emit e).
Proof. intros w. split; auto. Qed.

Lemma monotone_zap_deref h : monotone (zap_deref h).
Proof.
  intros w. unfold zap_deref. destruct (zapHeap w !! h); apply grows_refl.
Qed.

Lemma monotone_log_deref l : monotone (log_deref l).
Proof.
  intros w. unfold log_deref. destruct (logHeap w !! l); apply grows_refl.
Qed.

Lemma monotone_zap_alloc e : monotone (zap_alloc e).
Proof.
  intros w. split; simpl; [|auto].
  intros h x Hh. rewrite lookup_insert_ne; [exact Hh|].
  intros <-. apply (is_fresh (dom (zapHeap w))).
  eapply elem_of_dom_2, Hh.
Qed.

Lemma monotone_log_alloc s : monotone (log_alloc s).
Proof.
  intros w. split; simpl; [auto|].
  intros l x Hl. rewrite lookup_insert_ne; [exact Hl|].
  intros <-. apply (is_fresh (dom (logHeap w))).
  eapply elem_of_dom_2, Hl.
Qed.

Create HintDb mono.

#[local] Hint Resolve monotone_ret monotone_raise monotone_emit
  monotone_zap_deref monotone_log_deref monotone_zap_alloc
  monotone_log_alloc : mono.

Ltac mono :=
  repeat first
    [ apply monotone_bind; [|intros ?]
    | solve [auto with mono]
    | match goal with
      | |- monotone (if ?b then _ else _) => destruct b
      | |- monotone (match ?x with _ => _ end) => destruct x
      end ].

Lemma monotone_zap_DPanic h msg fs : monotone (zap_DPanic h msg fs).
Proof. unfold zap_DPanic. mono. Qed.

Lemma monotone_zap_log lvl h msg fs : monotone (zap_log lvl h msg fs).
Proof. unfold zap_log. mono. Qed.

Lemma monotone_zap_With h fs : monotone (zap_With h fs).
Proof. unfold zap_With. mono. Qed.

Lemma monotone_zap_Named h s : monotone (zap_Named h s).
Proof. unfold zap_Named. mono. Qed.

Lemma monotone_NewLogger h : monotone (NewLogger h).
Proof. unfold NewLogger. mono. Qed.

#[local] Hint Resolve monotone_zap_DPanic monotone_zap_log monotone_zap_With
  monotone_zap_Named monotone_NewLogger : mono.

Lemma monotone_handleFields_loop l args : forall acc,
  monotone (handleFields_loop l args acc).
Proof.
  induction args as [|a|a b rest IH] using pairs_ind; intros acc.
  - simpl. mono.
  - simpl. destruct (is_FieldPtr a); mono.
  - simpl. destruct (is_FieldPtr a); [mono|].
    destruct (as_string a); [apply IH | mono].
Qed.

Lemma monotone_handleFields l args additional :
  monotone (handleFields l args additional).
Proof.
  unfold handleFields. destruct args; [mono|].
  apply monotone_handleFields_loop.
Qed.

#[local] Hint Resolve monotone_handleFields : mono.

Lemma monotone_WithValue l args : monotone (zapLogger_WithValue l args).
Proof. unfold zapLogger_WithValue. mono. Qed.

Lemma monotone_WithName l s : monotone (zapLogger_WithName l s).
Proof. unfold zapLogger_WithName. mono. Qed.

Lemma grows_logger_preserved l w w' : grows w w' -> logger_preserved l w w'.
Proof. intros [Hz Hl] s Hs. repeat split; auto. Qed.

(** What a live logger lets an observer see. *)
Lemma observe_call {A} (c : M A) w a e :
  c w = (Ok a, record_call e w) -> observe c w = (Ok a, [e]).
Proof.
  intros H. unfold observe. rewrite H. simpl. now rewrite drop_app_length.
Qed.

Lemma zapLogger_log_run (op : positive -> string -> list Field -> M unit)
  lvl l s e w msg fs :
  (forall w', op l msg fs w'
     = (do r <- log_deref l; zap_log lvl (zapLogger_zapLogger r) msg fs) w') ->
  logHeap w !! l = Some s ->
  zapHeap w !! zapLogger_zapLogger s = Some e ->
  observe (op l msg fs) w
    = (Ok tt, [EvLog (zapLogger_zapLogger s) lvl msg fs]).
Proof.
  intros Hop Hl He. apply observe_call. rewrite Hop.
  rewrite (bind_ok _ _ _ _ _ (log_deref_ok _ _ _ Hl)).
  apply (zap_log_run _ _ _ _ _ _ He).
Qed.

Lemma observe_Write l s e w p :
  logHeap w !! l = Some s ->
  zapHeap w !! zapLogger_zapLogger s = Some e ->
  observe (zapLogger_Write l p) w
    = (Ok (Z.of_nat (length p), None),
       [EvLog (zapLogger_zapLogger s) InfoLevel
          (String.string_of_list_byte p) []]).
Proof.
  intros Hl He. apply observe_call. unfold zapLogger_Write, zap_Info.
  rewrite (bind_ok _ _ _ _ _ (log_deref_ok _ _ _ Hl)).
  now rewrite (bind_ok _ _ _ _ _ (zap_log_run _ _ _ _ _ _ He)).
Qed.

Lemma observe_V l s e w v :
  logHeap w !! l = Some s ->
  zapHeap w !! zapLogger_zapLogger s = Some e ->
  observe (zapLogger_V l v) w =
    (Ok (if cfg_Level (zl_config e) <=? zapcore_Level (int_mul (-1) v)
         then infoLoggerPtr {| level := zapcore_Level (int_mul (-1) v);
                               log := zapLogger_zapLogger s |}
         else disabledInfoLogeer),
     [EvEnabled (zapLogger_zapLogger s) (zapcore_Level (int_mul (-1) v))]).
Proof.
  intros Hl He. apply observe_call. apply (zapLogger_V_run _ _ _ _ _ Hl He).
Qed.

(** A logger whose objects are preserved behaves as before. *)
Lemma preserved_same_behaviour l s e w w' :
  logHeap w !! l = Some s ->
  zapHeap w !! zapLogger_zapLogger s = Some e ->
  logger_preserved l w w' -> same_behaviour l w w'.
Proof.
  intros Hl He Hp. destruct (Hp s Hl) as (Hl' & Hz & _).
  specialize (Hz e He).
  split; [|split].
  - intros msg fs.
    rewrite !(zapLogger_log_run zapLogger_Debug DebugLevel l s e) by auto.
    rewrite !(zapLogger_log_run zapLogger_Info InfoLevel l s e) by auto.
    rewrite !(zapLogger_log_run zapLogger_Warn WarnLevel l s e) by auto.
    rewrite !(zapLogger_log_run zapLogger_Error ErrorLevel l s e) by auto.
    auto.
  - intros p. now rewrite !(observe_Write l s e).
  - intros v. now rewrite !(observe_V l s e).
Qed.

(** [NewLogger] returns an address that no earlier logger had. *)
Lemma NewLogger_fresh w w1 h :
  grows w w1 ->
  exists l' w2,
    NewLogger h w1 = (Ok l', w2) /\
    logHeap w !! l' = None /\
    logHeap w2 !! l'
      = Some {| zapLogger_zapLogger := h;
                zapLogger_infoLogger := {| level := InfoLevel; log := h |} |}.
Proof.
  intros [_ Hg]. do 2 eexists. split; [reflexivity|]. split.
  - destruct (logHeap w !! fresh (dom (logHeap w1))) as [x|] eqn:E; [|easy].
    exfalso. apply (is_fresh (dom (logHeap w1))).
    eapply elem_of_dom_2, Hg, E.
  - simpl. apply lookup_insert_eq.
Qed.

Lemma zap_Named_ok h e name w :
  zapHeap w !! h = Some e -> exists h' w1, zap_Named h name w = (Ok h', w1).
Proof.
  intros He. unfold zap_Named.
  rewrite (bind_ok _ _ _ _ _ (zap_deref_ok _ _ _ He)).
  destruct (String.eqb name ""); do 2 eexists; reflexivity.
Qed.

Lemma zap_With_ok h e fs w :
  zapHeap w !! h = Some e ->
  has_unknown_field fs = false ->
  exists h' w1, zap_With h fs w = (Ok h', w1).
Proof.
  intros He Hu. unfold zap_With.
  rewrite (bind_ok _ _ _ _ _ (zap_deref_ok _ _ _ He)).
  destruct fs; [|rewrite Hu]; do 2 eexists; reflexivity.
Qed.

(** Outside development mode [handleFields] always returns. *)
Lemma handleFields_loop_ok l e w args :
  zapHeap w !! l = Some e ->
  cfg_Development (zl_config e) = false ->
  forall acc, exists fs w1, handleFields_loop l args acc w = (Ok fs, w1).
Proof.
  intros Hl Hdev.
  induction args as [|a|a b rest IH] using pairs_ind; intros acc.
  - do 2 eexists; reflexivity.
  - simpl. destruct (is_FieldPtr a);
      rewrite (break_run _ _ _ _ _ _ Hl), Hdev; eauto.
  - simpl. destruct (is_FieldPtr a).
    + rewrite (break_run _ _ _ _ _ _ Hl), Hdev; eauto.
    + destruct (as_string a); [apply IH|].
      rewrite (break_run _ _ _ _ _ _ Hl), Hdev; eauto.
Qed.

Lemma handleFields_ok l e w args additional :
  zapHeap w !! l = Some e ->
  cfg_Development (zl_config e) = false ->
  exists fs w1, handleFields l args additional w = (Ok fs, w1).
Proof.
  intros Hl Hdev. unfold handleFields. destruct args.
  - do 2 eexists; reflexivity.
  - apply (handleFields_loop_ok _ _ _ _ Hl Hdev).
Qed.

(** C8 (amended).  [WithValue] and [WithName] never touch the logger they
    are called on.  For a live logger [l] and every argument list or
    name, whether the call returns or panics: the object at [l] (engine
    handle and bound level) and the engine objects it points to are the
    same afterwards, and [l] answers [Debug], [Info], [Warn], [Error],
    [Write] and [V] exactly as before.  Every logger either call returns
    is a new object, at an address no logger had.  [WithName] always
    returns one, and so does [WithValue] without arguments. *)
Theorem derivation_never_changes_receiver :
  forall l s e w,
    logHeap w !! l = Some s ->
    zapHeap w !! zapLogger_zapLogger s = Some e ->
    (forall keysAndValues,
        let r := zapLogger_WithValue l keysAndValues w in
        logger_preserved l w (snd r) /\
        same_behaviour l w (snd r) /\
        (forall l', fst r = Ok l' ->
                    l' <> l /\ logHeap w !! l' = None /\
                    is_Some (logHeap (snd r) !! l'))) /\
    (exists l', fst (zapLogger_WithValue l [] w) = Ok l') /\
    (forall name,
        let r := zapLogger_WithName l name w in
        logger_preserved l w (snd r) /\
        same_behaviour l w (snd r) /\
        exists l', fst r = Ok l' /\ l' <> l /\ logHeap w !! l' = None /\
                   is_Some (logHeap (snd r) !! l')).
Proof.
  intros l s e w Hl He. split; [|split].
  - intros args r.
    assert (Hp : logger_preserved l w (snd r))
      by apply grows_logger_preserved, monotone_WithValue.
    split; [exact Hp|].
    split; [exact (preserved_same_behaviour _ _ _ _ _ Hl He Hp)|].
    subst r. unfold zapLogger_WithValue.
    rewrite (bind_ok _ _ _ _ _ (log_deref_ok _ _ _ Hl)).
    intros l' Hr.
    pose proof (monotone_handleFields (zapLogger_zapLogger s) args [] w) as G1.
    destruct (handleFields (zapLogger_zapLogger s) args [] w)
      as [[fs|p] w1] eqn:E; simpl in G1.
    2: { rewrite (bind_panic _ _ _ _ _ E) in Hr. discriminate. }
    rewrite (bind_ok _ _ _ _ _ E) in Hr |- *.
    pose proof (monotone_zap_With (zapLogger_zapLogger s) fs w1) as G2.
    destruct (zap_With (zapLogger_zapLogger s) fs w1)
      as [[h'|p] w2] eqn:E2; simpl in G2.
    2: { rewrite (bind_panic _ _ _ _ _ E2) in Hr. discriminate. }
    rewrite (bind_ok _ _ _ _ _ E2) in Hr |- *.
    destruct (NewLogger_fresh w w2 h' (grows_trans _ _ _ G1 G2))
      as (l2 & w3 & E3 & Hnone & Hsome).
    rewrite E3 in Hr |- *. simpl in Hr |- *. injection Hr as ->.
    repeat split; [congruence | exact Hnone | now rewrite Hsome].
  - unfold zapLogger_WithValue.
    rewrite (bind_ok _ _ _ _ _ (log_deref_ok _ _ _ Hl)).
    assert (E2 : zap_With (zapLogger_zapLogger s) [] w
                 = (Ok (zapLogger_zapLogger s), w)).
    { unfold zap_With.
      now rewrite (bind_ok _ _ _ _ _ (zap_deref_ok _ _ _ He)). }
    rewrite (bind_ok _ _ _ _ _
               (eq_refl : handleFields _ [] [] w = (Ok [], w))).
    rewrite (bind_ok _ _ _ _ _ E2).
    destruct (NewLogger_fresh w w (zapLogger_zapLogger s) (grows_refl w))
      as (l2 & w3 & E3 & _).
    exists l2. now rewrite E3.
  - intros name r.
    assert (Hp : logger_preserved l w (snd r))
      by apply grows_logger_preserved, monotone_WithName.
    split; [exact Hp|].
    split; [exact (preserved_same_behaviour _ _ _ _ _ Hl He Hp)|].
    subst r. unfold zapLogger_WithName.
    rewrite (bind_ok _ _ _ _ _ (log_deref_ok _ _ _ Hl)).
    destruct (zap_Named_ok _ _ name w He) as (h' & w1 & E1).
    pose proof (monotone_zap_Named (zapLogger_zapLogger s) name w) as G1.
    rewrite E1 in G1. simpl in G1.
    destruct (NewLogger_fresh w w1 h' G1) as (l' & w2 & E2 & Hnone & Hsome).
    exists l'. rewrite (bind_ok _ _ _ _ _ E1), E2. simpl.
    repeat split; [congruence | exact Hnone | now rewrite Hsome].
Qed.

Lemma derivation_never_changes_receiver_witness :
  logHeap (sample_world "info" false) !! sample_logger
    = Some {| zapLogger_zapLogger := sample_engine;
              zapLogger_infoLogger :=
                {| level := InfoLevel; log := sample_engine |} |} /\
  zapHeap (sample_world "info" false) !! sample_engine
    = Some (sample_zap_Logger InfoLevel false) /\
  logger_preserved sample_logger (sample_world "info" false)
    (snd (zapLogger_WithValue sample_logger [IString "k"; IInt 1]
            (sample_world "info" false))) /\
  same_behaviour sample_logger (sample_world "info" false)
    (snd (zapLogger_WithValue sample_logger [IString "k"; IInt 1]
            (sample_world "info" false))) /\
  logger_preserved sample_logger (sample_world "info" false)
    (snd (zapLogger_WithName sample_logger "sub"
            (sample_world "info" false))) /\
  same_behaviour sample_logger (sample_world "info" false)
    (snd (zapLogger_WithName sample_logger "sub"
            (sample_world "info" false))).
Proof.
  split; [vm_compute; reflexivity|]. split; [vm_compute; reflexivity|].
  destruct (derivation_never_changes_receiver sample_logger
              {| zapLogger_zapLogger := sample_engine;
                 zapLogger_infoLogger :=
                   {| level := InfoLevel; log := sample_engine |} |}
              (sample_zap_Logger InfoLevel false)
              (sample_world "info" false)) as (HV & _ & HN);
    [vm_compute; reflexivity | vm_compute; reflexivity |].
  destruct (HV [IString "k"; IInt 1]) as (P1 & B1 & _).
  destruct (HN "sub") as (P2 & B2 & _).
  exact (conj P1 (conj B1 (conj P2 B2))).
Defined.

(** C8, a counterexample to the claim as stated: on a development logger
    [WithValue] with the unpaired key "request_id" returns no logger; the
    engine panics after the diagnostic. *)
Lemma WithValue_unpaired_key_in_development_returns_no_logger :
  fst (zapLogger_WithValue sample_logger [IString "request_id"]
         (sample_world "info" true))
    = Panic (DPanicRaised
               "add number of arguments passed as key-value pairs for logging.")
  /\ ~ exists l',
        fst (zapLogger_WithValue sample_logger [IString "request_id"]
               (sample_world "info" true)) = Ok l'.
Proof.
  assert (E : fst (zapLogger_WithValue sample_logger [IString "request_id"]
                     (sample_world "info" true))
              = Panic (DPanicRaised
                  "add number of arguments passed as key-value pairs for logging."))
    by (vm_compute; reflexivity).
  split; [exact E|]. intros [l' H]. rewrite E in H. discriminate.
Qed.

(** ** Construction *)

Lemma zap_Config_Build_ok cfg a k w :
  encoder_registered (cfg_Encoding cfg) = true ->
  existsb (fun p => bool_decide (p ∈ unopenable w))
    (cfg_OutputPaths cfg ++ cfg_ErrorOutputPaths cfg) = false ->
  exists h w1,
    zap_Config_Build cfg a k w = (Ok (inl h), w1) /\
    zapHeap w1 !! h
      = Some {| zl_config := cfg; zl_addStacktrace := a; zl_callerSkip := k;
                zl_name := ""; zl_context := [] |} /\
    grows w w1.
Proof.
  intros Henc Hsinks. unfold zap_Config_Build. rewrite Henc, Hsinks. simpl.
  do 2 eexists. split; [reflexivity|]. split.
  - simpl. apply lookup_insert_eq.
  - apply (monotone_zap_alloc _ w).
Qed.

Lemma zap_Config_Build_fails cfg a k w :
  encoder_registered (cfg_Encoding cfg)
  && negb (existsb (fun p => bool_decide (p ∈ unopenable w))
             (cfg_OutputPaths cfg ++ cfg_ErrorOutputPaths cfg)) = false ->
  exists err, zap_Config_Build cfg a k w = (Ok (inr err), w).
Proof.
  intros H. unfold zap_Config_Build.
  destruct (encoder_registered (cfg_Encoding cfg)); simpl in *; [|eauto].
  destruct (existsb _ _); [eauto | discriminate].
Qed.

(** A logger derived by [Named] keeps the configuration of its parent. *)
Lemma zap_Named_config h e name w h' w' :
  zapHeap w !! h = Some e ->
  zap_Named h name w = (Ok h', w') ->
  exists e', zapHeap w' !! h' = Some e' /\ zl_config e' = zl_config e.
Proof.
  intros He. unfold zap_Named.
  rewrite (bind_ok _ _ _ _ _ (zap_deref_ok _ _ _ He)).
  destruct (String.eqb name "").
  - intros [= <- <-]. eauto.
  - intros [= <- <-]. eexists. split; [apply lookup_insert_eq | reflexivity].
Qed.

Lemma log_alloc_fresh w w1 s :
  grows w w1 ->
  exists l w2,
    log_alloc s w1 = (Ok l, w2) /\
    logHeap w !! l = None /\
    logHeap w2 !! l = Some s /\
    zapHeap w2 = zapHeap w1.
Proof.
  intros [_ Hg]. do 2 eexists. split; [reflexivity|]. split; [|split].
  - destruct (logHeap w !! fresh (dom (logHeap w1))) as [x|] eqn:E; [|easy].
    exfalso. apply (is_fresh (dom (logHeap w1))).
    eapply elem_of_dom_2, Hg, E.
  - simpl. apply lookup_insert_eq.
  - reflexivity.
Qed.

(** What [New] does with a non-nil configuration: it panics exactly when
    the engine cannot build a logger, and otherwise returns a new logger
    whose bound level is info and whose engine objects are configured at
    the level read from the level text. *)
Lemma New_Some_run ToLower NewOptions opts w :
  if buildable opts w then
    exists l w' s e e',
      New ToLower NewOptions (Some opts) w = (Ok l, w') /\
      logHeap w !! l = None /\
      logHeap w' !! l = Some s /\
      level (zapLogger_infoLogger s) = InfoLevel /\
      zapHeap w' !! log (zapLogger_infoLogger s) = Some e /\
      cfg_Level (zl_config e) = level_of_text ToLower (Level opts) /\
      zapHeap w' !! zapLogger_zapLogger s = Some e' /\
      cfg_Level (zl_config e') = level_of_text ToLower (Level opts)
  else fst (New ToLower NewOptions (Some opts) w) = Panic BuildFailed.
Proof.
  unfold New.
  rewrite (bind_ok _ _ _ _ _ (eq_refl : ret opts w = (Ok opts, w))).
  fold (level_of_text ToLower (Level opts)).
  match goal with |- context [zap_Config_Build ?c _ _] => set (cfg := c) end.
  destruct (buildable opts w) eqn:B; unfold buildable in B.
  - apply andb_true_iff in B as [Henc Hsinks].
    apply negb_true_iff in Hsinks.
    destruct (zap_Config_Build_ok cfg PanicLevel 1 w Henc Hsinks)
      as (h & w1 & EB & Hh & G1).
    rewrite (bind_ok _ _ _ _ _ EB).
    destruct (zap_Named_ok h _ (Name opts) w1 Hh) as (h' & w2 & EN).
    destruct (zap_Named_config _ _ _ _ _ _ Hh EN) as (e' & Hh' & Hcfg).
    pose proof (monotone_zap_Named h (Name opts) w1) as G2.
    rewrite EN in G2; simpl in G2.
    rewrite (bind_ok _ _ _ _ _ EN).
    destruct (log_alloc_fresh w w2
                {| zapLogger_zapLogger := h';
                   zapLogger_infoLogger := {| level := InfoLevel; log := h |} |}
                (grows_trans _ _ _ G1 G2)) as (l & w3 & EL & Hnone & Hl & Hz).
    rewrite (bind_ok _ _ _ _ _ EL).
    assert (Hh3 : zapHeap w3 !! h = Some
              {| zl_config := cfg; zl_addStacktrace := PanicLevel;
                 zl_callerSkip := 1; zl_name := ""; zl_context := [] |})
      by (rewrite Hz; apply (proj1 G2), Hh).
    unfold zap_RedirectStdLog.
    rewrite (bind_ok _ _ _ _ _
               (bind_ok _ _ _ _ _ (zap_deref_ok _ _ _ Hh3))).
    exists l, (record_call (EvRedirectStdLog h) w3),
      {| zapLogger_zapLogger := h';
         zapLogger_infoLogger := {| level := InfoLevel; log := h |} |},
      {| zl_config := cfg; zl_addStacktrace := PanicLevel;
         zl_callerSkip := 1; zl_name := ""; zl_context := [] |}, e'.
    split; [reflexivity|]. split; [exact Hnone|]. split; [exact Hl|].
    split; [reflexivity|]. split; [exact Hh3|]. split; [reflexivity|].
    split; [simpl; rewrite Hz; exact Hh' | now rewrite Hcfg].
  - destruct (zap_Config_Build_fails cfg PanicLevel 1 w B) as (err & EB).
    now rewrite (bind_ok _ _ _ _ _ EB).
Qed.

(** C9.  When the level text of the configuration does not parse, [New]
    behaves in every respect as it does for the same configuration with
    the level text "info": if the engine can build a logger it returns
    one whose engine objects are configured at [InfoLevel]; the only panic
    left is the engine's construction failure, which does not depend on
    the level text. *)
Theorem New_malformed_level_falls_back_to_info :
  forall ToLower NewOptions opts w,
    UnmarshalText ToLower (Level opts) = None ->
    New ToLower NewOptions (Some opts) w
      = New ToLower NewOptions (Some (with_Level "info" opts)) w /\
    if buildable opts w then
      exists l w' s e e',
        New ToLower NewOptions (Some opts) w = (Ok l, w') /\
        logHeap w' !! l = Some s /\
        level (zapLogger_infoLogger s) = InfoLevel /\
        zapHeap w' !! log (zapLogger_infoLogger s) = Some e /\
        cfg_Level (zl_config e) = InfoLevel /\
        zapHeap w' !! zapLogger_zapLogger s = Some e' /\
        cfg_Level (zl_config e') = InfoLevel
    else fst (New ToLower NewOptions (Some opts) w) = Panic BuildFailed.
Proof.
  intros ToLower NewOptions opts w Hbad. split.
  - cbv beta iota zeta delta [New bind ret]. rewrite Hbad. reflexivity.
  - pose proof (New_Some_run ToLower NewOptions opts w) as H.
    destruct (buildable opts w); [|exact H].
    destruct H as (l & w' & s & e & e' & E & _ & Hl & Hlvl & He & Hc & He' & Hc').
    unfold level_of_text in Hc, Hc'. rewrite Hbad in Hc, Hc'.
    exists l, w', s, e, e'. repeat split; assumption.
Qed.

Lemma New_malformed_level_falls_back_to_info_witness :
  UnmarshalText ascii_ToLower (Level (sample_options "verbose" false)) = None /\
  New ascii_ToLower (sample_options "info" false) (Some (sample_options "verbose" false))
    empty_world
  = New ascii_ToLower (sample_options "info" false)
      (Some (with_Level "info" (sample_options "verbose" false)))
      empty_world /\
  if buildable (sample_options "verbose" false) empty_world then
    exists l w' s e e',
      New ascii_ToLower (sample_options "info" false)
        (Some (sample_options "verbose" false)) empty_world = (Ok l, w') /\
      logHeap w' !! l = Some s /\
      level (zapLogger_infoLogger s) = InfoLevel /\
      zapHeap w' !! log (zapLogger_infoLogger s) = Some e /\
      cfg_Level (zl_config e) = InfoLevel /\
      zapHeap w' !! zapLogger_zapLogger s = Some e' /\
      cfg_Level (zl_config e') = InfoLevel
  else fst (New ascii_ToLower (sample_options "info" false)
              (Some (sample_options "verbose" false)) empty_world)
       = Panic BuildFailed.
Proof.
  split; [reflexivity|].
  apply (New_malformed_level_falls_back_to_info ascii_ToLower (sample_options "info" false)
           (sample_options "verbose" false) empty_world).
  reflexivity.
Defined.

(** C10.  [New(nil)] is [New(NewOptions())]: same outcome, same state.  It
    never panics on a nil dereference; it returns a logger whenever the
    engine can build one from the default configuration, and panics with
    the engine's construction failure otherwise. *)
Theorem New_nil_uses_default_options :
  forall ToLower NewOptions w,
    New ToLower NewOptions None w = New ToLower NewOptions (Some NewOptions) w /\
    fst (New ToLower NewOptions None w) <> Panic NilDereference /\
    if buildable NewOptions w then
      exists l w', New ToLower NewOptions None w = (Ok l, w') /\
                   logHeap w !! l = None /\ is_Some (logHeap w' !! l)
    else fst (New ToLower NewOptions None w) = Panic BuildFailed.
Proof.
  intros ToLower NewOptions w.
  assert (E : New ToLower NewOptions None w = New ToLower NewOptions (Some NewOptions) w)
    by reflexivity.
  split; [exact E|]. rewrite E.
  pose proof (New_Some_run ToLower NewOptions NewOptions w) as H.
  destruct (buildable NewOptions w).
  - destruct H as (l & w' & s & e & e' & Hrun & Hnone & Hl & _).
    rewrite Hrun. split; [discriminate|].
    exists l, w'. repeat split; [exact Hnone | now rewrite Hl].
  - rewrite H. split; [discriminate | reflexivity].
Qed.

(** * Further properties *)

(** ** The field normalizer on arbitrary input *)

(** The loop on any argument list: it consumes the leading well-formed
    pairs; if that is the whole list nothing else happens, otherwise one
    diagnostic goes out and the loop breaks. *)
Lemma handleFields_loop_run l e w args :
  zapHeap w !! l = Some e ->
  forall acc,
    (textual_pairs args = true /\
     handleFields_loop l args acc w = (Ok (acc ++ pair_fields args), w)) \/
    (textual_pairs args = false /\
     exists msg fs,
       handleFields_loop l args acc w =
         (if cfg_Development (zl_config e) then Panic (DPanicRaised msg)
          else Ok (acc ++ pair_fields args),
          record_call (EvLog l DPanicLevel msg fs) w)).
Proof.
  intros Hl.
  induction args as [|a|a b rest IH] using pairs_ind; intros acc.
  - left. split; [reflexivity|]. simpl. now rewrite app_nil_r.
  - right. split; [now destruct a|].
    assert (Hp : pair_fields [a] = []) by now destruct a.
    rewrite Hp, app_nil_r. simpl.
    destruct (is_FieldPtr a); do 2 eexists; apply (break_run _ _ _ _ _ _ Hl).
  - destruct a as [| k | | | |];
      try (right; split; [reflexivity|]; simpl; rewrite app_nil_r;
           do 2 eexists; apply (break_run _ _ _ _ _ _ Hl)).
    simpl. destruct (IH (acc ++ [zap_Any k b])) as [[Ht Hr]|[Ht (msg & fs & Hr)]].
    + left. split; [exact Ht|]. rewrite Hr. now rewrite <- app_assoc.
    + right. split; [exact Ht|]. exists msg, fs. rewrite Hr.
      now rewrite <- app_assoc.
Qed.

(** X1.  [handleFields] on a non-empty argument list and a live logger, for
    any arguments whatsoever.  If the list is made of well-formed pairs the
    state is untouched and the result is [normalized]: as many zero-valued
    fields as [make] was asked for (the fields of [additional] themselves
    are not in it), then one field per pair.  Otherwise exactly one
    diagnostic is emitted at [DPanicLevel] and the result is [normalized]
    over the leading well-formed pairs, unless the engine is in
    development mode, where it panics after the emission. *)
Theorem handleFields_run :
  forall l e w args additional,
    zapHeap w !! l = Some e ->
    args <> [] ->
    (textual_pairs args = true ->
     handleFields l args additional w = (Ok (normalized args additional), w)) /\
    (textual_pairs args = false ->
     exists msg fs,
       handleFields l args additional w =
         (if cfg_Development (zl_config e) then Panic (DPanicRaised msg)
          else Ok (normalized args additional),
          record_call (EvLog l DPanicLevel msg fs) w)).
Proof.
  intros l e w args additional Hl Hne.
  unfold handleFields, normalized.
  destruct args as [|a args]; [congruence|].
  destruct (handleFields_loop_run l e w (a :: args) Hl
              (make_fields (length (a :: args) / 2 + length additional)))
    as [[Ht Hr]|[Ht Hr]]; split; intros Ht'; try congruence; exact Hr.
Qed.

Lemma handleFields_run_witness :
  zapHeap (sample_world "info" true) !! sample_engine
    = Some (sample_zap_Logger InfoLevel true) /\
  [IString "a"; IInt 1; IInt 7; IBool true] <> [] /\
  (textual_pairs [IString "a"; IInt 1; IInt 7; IBool true] = true ->
   handleFields sample_engine [IString "a"; IInt 1; IInt 7; IBool true]
     [zap_Any "x" INil] (sample_world "info" true)
   = (Ok (normalized [IString "a"; IInt 1; IInt 7; IBool true]
            [zap_Any "x" INil]), sample_world "info" true)) /\
  (textual_pairs [IString "a"; IInt 1; IInt 7; IBool true] = false ->
   exists msg fs,
     handleFields sample_engine [IString "a"; IInt 1; IInt 7; IBool true]
       [zap_Any "x" INil] (sample_world "info" true) =
       (if cfg_Development (zl_config (sample_zap_Logger InfoLevel true))
        then Panic (DPanicRaised msg)
        else Ok (normalized [IString "a"; IInt 1; IInt 7; IBool true]
                   [zap_Any "x" INil]),
        record_call (EvLog sample_engine DPanicLevel msg fs)
          (sample_world "info" true))).
Proof.
  split; [vm_compute; reflexivity|]. split; [discriminate|].
  apply (handleFields_run sample_engine (sample_zap_Logger InfoLevel true)
           (sample_world "info" true) [IString "a"; IInt 1; IInt 7; IBool true]
           [zap_Any "x" INil]); [vm_compute; reflexivity | discriminate].
Defined.

(** A break of the loop on any logger handle. *)
Lemma break_frame l w msg fs (fields : list Field) :
  at_most_one_diagnostic l w
    (snd ((do _ <- zap_DPanic l msg fs; ret fields) w)).
Proof.
  unfold bind at 1, zap_DPanic, bind at 1, zap_deref.
  destruct (zapHeap w !! l) as [e|].
  - unfold bind, emit, raise, ret.
    destruct (cfg_Development (zl_config e)); simpl;
      repeat (split; [reflexivity|]); right; eauto.
  - simpl. repeat (split; [reflexivity|]). now left.
Qed.

Lemma at_most_one_diagnostic_refl l w : at_most_one_diagnostic l w w.
Proof. repeat (split; [reflexivity|]). now left. Qed.

(** X2.  Whatever the arguments, the logger handle and the engine's mode,
    [handleFields] changes no object and makes at most one call on the
    engine, a diagnostic at [DPanicLevel]. *)
Theorem handleFields_at_most_one_diagnostic :
  forall l args additional w,
    at_most_one_diagnostic l w (snd (handleFields l args additional w)).
Proof.
  intros l args additional w. unfold handleFields.
  destruct args as [|a0 args0]; [apply at_most_one_diagnostic_refl|].
  generalize (make_fields (length (a0 :: args0) / 2 + length additional)).
  generalize (a0 :: args0). clear a0 args0. intros args.
  induction args as [|a|a b rest IH] using pairs_ind; intros acc.
  - apply at_most_one_diagnostic_refl.
  - simpl. destruct (is_FieldPtr a); apply break_frame.
  - simpl. destruct (is_FieldPtr a); [apply break_frame|].
    destruct (as_string a); [apply IH | apply break_frame].
Qed.

Lemma handleFields_nonempty l pre k rest additional w :
  handleFields l (pre ++ k :: rest) additional w
    = handleFields_loop l (pre ++ k :: rest)
        (make_fields (length (pre ++ k :: rest) / 2 + length additional)) w.
Proof. unfold handleFields. now destruct pre. Qed.

(** X3.  What the diagnostic says.  After well-formed pairs [pre], on a
    live logger: a [*zap.Field] at a key position is reported as
    "Strongly-typed Zap Field pass to logz" under the key "zap field"; a
    last element without a value as "add number of arguments passed as
    key-value pairs for logging." under "ignored key"; any other key that
    is not a string, with a value after it, as "non-string key argument
    passed for logging" under "invalid key".  In each case the offending
    element is attached to the diagnostic and no field is made from it or
    from what follows. *)
Theorem handleFields_diagnostic_content :
  forall l e w pre additional,
    zapHeap w !! l = Some e ->
    textual_pairs pre = true ->
    (forall k rest,
        is_FieldPtr k = true ->
        stopped_after l e w (pre ++ k :: rest) additional pre
          "Strongly-typed Zap Field pass to logz" [zap_Any "zap field" k]) /\
    (forall k,
        is_FieldPtr k = false ->
        stopped_after l e w (pre ++ [k]) additional pre
          "add number of arguments passed as key-value pairs for logging."
          [zap_Any "ignored key" k]) /\
    (forall k v rest,
        is_FieldPtr k = false -> as_string k = None ->
        stopped_after l e w (pre ++ k :: v :: rest) additional pre
          "non-string key argument passed for logging"
          [zap_Any "invalid key" k]).
Proof.
  intros l e w pre additional Hl Hpre. unfold stopped_after.
  split; [|split].
  - intros k rest Hk. rewrite handleFields_nonempty.
    rewrite (handleFields_loop_textual _ _ _ _ _ Hpre). simpl. rewrite Hk.
    apply (break_run _ _ _ _ _ _ Hl).
  - intros k Hk. rewrite handleFields_nonempty.
    rewrite (handleFields_loop_textual _ _ _ _ _ Hpre). simpl. rewrite Hk.
    apply (break_run _ _ _ _ _ _ Hl).
  - intros k v rest Hk Hs. rewrite handleFields_nonempty.
    rewrite (handleFields_loop_textual _ _ _ _ _ Hpre). simpl.
    rewrite Hk, Hs. apply (break_run _ _ _ _ _ _ Hl).
Qed.

Lemma handleFields_diagnostic_content_witness :
  zapHeap (sample_world "info" false) !! sample_engine
    = Some (sample_zap_Logger InfoLevel false) /\
  textual_pairs [IString "user"; IString "ann"] = true /\
  is_FieldPtr (IInt 42) = false /\
  as_string (IInt 42) = None /\
  stopped_after sample_engine (sample_zap_Logger InfoLevel false)
    (sample_world "info" false)
    ([IString "user"; IString "ann"] ++ IInt 42 :: IString "x" :: []) []
    [IString "user"; IString "ann"]
    "non-string key argument passed for logging"
    [zap_Any "invalid key" (IInt 42)].
Proof.
  split; [vm_compute; reflexivity|]. do 3 (split; [reflexivity|]).
  destruct (handleFields_diagnostic_content sample_engine
              (sample_zap_Logger InfoLevel false) (sample_world "info" false)
              [IString "user"; IString "ann"] [])
    as (_ & _ & H); [vm_compute; reflexivity | reflexivity |].
  apply (H (IInt 42) (IString "x") []); reflexivity.
Defined.

(** X4.  Where the fields sit in the result.  For a non-empty list of
    well-formed pairs [handleFields] returns, without touching the state,
    a slice of [len(args)/2 + len(additional)] zero values followed by
    [len(args)/2] fields; the field at offset [i] after the zero values
    carries key [args[2i]] and value [args[2i+1]]. *)
Theorem handleFields_result_positions :
  forall l w args additional,
    textual_pairs args = true ->
    args <> [] ->
    exists fields,
      handleFields l args additional w = (Ok fields, w) /\
      length fields
        = (length args / 2 + length additional + length args / 2)%nat /\
      (forall j : nat,
          (j < length args / 2 + length additional)%nat ->
          fields !! j = Some zeroField) /\
      (forall (i : nat) f,
          fields !! (length args / 2 + length additional + i)%nat = Some f ->
          args !! (2 * i)%nat = Some (IString (Key f)) /\
          args !! (2 * i + 1)%nat = Some (field_value f)).
Proof.
  intros l w args additional Ht Hne.
  exists (make_fields (length args / 2 + length additional)
            ++ pair_fields args).
  assert (Hlen : length (make_fields (length args / 2 + length additional))
                 = (length args / 2 + length additional)%nat)
    by apply length_replicate.
  split; [|split; [|split]].
  - destruct args as [|a args]; [congruence|].
    unfold handleFields.
    rewrite <- (app_nil_r (a :: args)) at 1.
    now rewrite (handleFields_loop_textual _ _ _ _ _ Ht).
  - now rewrite length_app, Hlen, (length_pair_fields _ Ht).
  - intros j Hj. rewrite lookup_app_l by (rewrite Hlen; exact Hj).
    now apply lookup_replicate_2.
  - intros i f Hf. rewrite lookup_app_r in Hf by (rewrite Hlen; lia).
    rewrite Hlen in Hf.
    replace (length args / 2 + length additional + i
             - (length args / 2 + length additional))%nat with i in Hf by lia.
    exact (pair_fields_lookup args Ht i f Hf).
Qed.

Lemma handleFields_result_positions_witness :
  textual_pairs [IString "a"; IInt 1; IString "b"; IBool true] = true /\
  [IString "a"; IInt 1; IString "b"; IBool true] <> [] /\
  exists fields,
    handleFields sample_engine [IString "a"; IInt 1; IString "b"; IBool true]
      [zap_Any "x" INil] empty_world = (Ok fields, empty_world) /\
    length fields
      = (length [IString "a"; IInt 1; IString "b"; IBool true] / 2
         + length [zap_Any "x" INil]
         + length [IString "a"; IInt 1; IString "b"; IBool true] / 2)%nat /\
    (forall j : nat,
        (j < length [IString "a"; IInt 1; IString "b"; IBool true] / 2
             + length [zap_Any "x" INil])%nat ->
        fields !! j = Some zeroField) /\
    (forall (i : nat) f,
        fields !! (length [IString "a"; IInt 1; IString "b"; IBool true] / 2
                   + length [zap_Any "x" INil] + i)%nat = Some f ->
        [IString "a"; IInt 1; IString "b"; IBool true] !! (2 * i)%nat
          = Some (IString (Key f)) /\
        [IString "a"; IInt 1; IString "b"; IBool true] !! (2 * i + 1)%nat
          = Some (field_value f)).
Proof.
  split; [reflexivity|]. split; [discriminate|].
  apply (handleFields_result_positions sample_engine empty_world
           [IString "a"; IInt 1; IString "b"; IBool true] [zap_Any "x" INil]);
    [reflexivity | discriminate].
Defined.

(** ** The info-only logger *)

Lemma zap_Check_run h e w lvl msg :
  zapHeap w !! h = Some e ->
  lvl < DPanicLevel ->
  zap_Check h lvl msg w =
    (Ok (if core_accepts e w (trace w ++ [EvCheck h lvl msg]) lvl
         then Some {| ce_logger := h; ce_level := lvl; ce_message := msg;
                      ce_cores := true; ce_should := WriteThenNoop |}
         else None),
     record_call (EvCheck h lvl msg) w).
Proof.
  intros H Hlvl. unfold zap_Check.
  rewrite (bind_ok _ _ _ _ _ (zap_deref_ok _ _ _ H)).
  rewrite (bind_ok _ _ _ _ _ (emit_run _ _)).
  assert (E1 : (lvl <? DPanicLevel) = true) by (apply Z.ltb_lt; exact Hlvl).
  assert (E2 : terminal_action e lvl = WriteThenNoop).
  { unfold terminal_action, PanicLevel, FatalLevel, DPanicLevel in *.
    assert (Ha : (lvl =? 4) = false) by (apply Z.eqb_neq; lia).
    assert (Hb : (lvl =? 5) = false) by (apply Z.eqb_neq; lia).
    assert (Hc : (lvl =? 3) = false) by (apply Z.eqb_neq; lia).
    now rewrite Ha, Hb, Hc. }
  rewrite E1, E2. unfold core_accepts. simpl.
  destruct (cfg_Level (zl_config e) <=? lvl); simpl; [|reflexivity].
  destruct ((DebugLevel <=? lvl) && (lvl <=? FatalLevel)); simpl;
    [destruct (sampler w _)|]; reflexivity.
Qed.

Lemma CheckedEntry_Write_run h lvl msg fields w :
  CheckedEntry_Write
    {| ce_logger := h; ce_level := lvl; ce_message := msg;
       ce_cores := true; ce_should := WriteThenNoop |} fields w =
    (if has_unknown_field fields then Panic UnknownFieldType else Ok tt,
     record_call (EvWrite h lvl msg fields) w).
Proof.
  unfold CheckedEntry_Write. rewrite (bind_ok _ _ _ _ _ (emit_run _ _)).
  simpl. now destruct (has_unknown_field fields).
Qed.

(** Zero values in a result of [handleFields] are of unknown type; the
    fields of pairs are not. *)
Lemma has_unknown_field_pairs args : has_unknown_field (pair_fields args) = false.
Proof.
  induction args as [|a|a b rest IH] using pairs_ind.
  - reflexivity.
  - now destruct a.
  - destruct a; try reflexivity. simpl. rewrite IH. now destruct b.
Qed.

Lemma has_unknown_field_normalized args :
  has_unknown_field (normalized args []) = (2 <=? length args)%nat.
Proof.
  unfold normalized, has_unknown_field. rewrite existsb_app.
  fold (has_unknown_field (pair_fields args)).
  rewrite has_unknown_field_pairs, orb_false_r, Nat.add_0_r.
  destruct (Nat.leb_spec 2 (length args)) as [H|H].
  - assert (Hd : (1 <= length args / 2)%nat)
      by (apply Nat.div_le_lower_bound; lia).
    destruct (length args / 2)%nat; [lia | reflexivity].
  - rewrite Nat.div_small by lia. reflexivity.
Qed.

Lemma textual_pairs_length args :
  textual_pairs args = true -> args <> [] -> (2 <= length args)%nat.
Proof.
  destruct args as [|a [|b rest]]; intros H Hne; try congruence.
  - now destruct a.
  - simpl. lia.
Qed.

(** X5.  [Info] and [Infof] of an [infoLogger] bound to a level from debug
    to error, on a live engine logger.  The engine is asked first: one
    [Check] at the bound level carrying the message ([Infof] formats it
    before the check, whatever the answer).  A [Write] for the same level
    and message follows exactly when the engine's core accepts the entry
    (the level is enabled and the sampler lets it through), with the
    caller's fields as given ([Info]) or with none ([Infof]); the write
    panics in the encoder if one of the caller's fields is of unknown
    type, such as a zero-valued field. *)
Theorem infoLogger_Info_Infof_run :
  forall Sprintf il e w,
    zapHeap w !! log il = Some e ->
    DebugLevel <= level il < DPanicLevel ->
    (forall msg fields,
        infoLogger_Info il msg fields w =
          if core_accepts e w
               (trace w ++ [EvCheck (log il) (level il) msg]) (level il)
          then (if has_unknown_field fields then Panic UnknownFieldType
                else Ok tt,
                record_call (EvWrite (log il) (level il) msg fields)
                  (record_call (EvCheck (log il) (level il) msg) w))
          else (Ok tt, record_call (EvCheck (log il) (level il) msg) w)) /\
    (forall template args,
        infoLogger_Infof Sprintf il template args w =
          if core_accepts e w
               (trace w
                  ++ [EvCheck (log il) (level il) (Sprintf template args)])
               (level il)
          then (Ok tt,
                record_call
                  (EvWrite (log il) (level il) (Sprintf template args) [])
                  (record_call
                     (EvCheck (log il) (level il) (Sprintf template args)) w))
          else (Ok tt,
                record_call
                  (EvCheck (log il) (level il) (Sprintf template args)) w)).
Proof.
  intros Sprintf il e w He [_ Hlvl]. split.
  - intros msg fields. unfold infoLogger_Info.
    rewrite (bind_ok _ _ _ _ _ (zap_Check_run _ _ _ _ msg He Hlvl)).
    destruct (core_accepts e w _ (level il)); [|reflexivity].
    apply CheckedEntry_Write_run.
  - intros template args. unfold infoLogger_Infof.
    rewrite (bind_ok _ _ _ _ _
               (zap_Check_run _ _ _ _ (Sprintf template args) He Hlvl)).
    destruct (core_accepts e w _ (level il)); [|reflexivity].
    apply CheckedEntry_Write_run.
Qed.

Lemma infoLogger_Info_Infof_run_witness :
  zapHeap (sample_world "warn" false)
    !! log {| level := InfoLevel; log := sample_engine |}
    = Some (sample_zap_Logger WarnLevel false) /\
  DebugLevel <= level {| level := InfoLevel; log := sample_engine |}
    < DPanicLevel /\
  infoLogger_Info {| level := InfoLevel; log := sample_engine |} "start"
    [zap_Any "port" (IInt 80)] (sample_world "warn" false)
  = if core_accepts (sample_zap_Logger WarnLevel false)
         (sample_world "warn" false)
         (trace (sample_world "warn" false)
            ++ [EvCheck sample_engine InfoLevel "start"]) InfoLevel
    then (if has_unknown_field [zap_Any "port" (IInt 80)]
          then Panic UnknownFieldType else Ok tt,
          record_call
            (EvWrite sample_engine InfoLevel "start"
               [zap_Any "port" (IInt 80)])
            (record_call (EvCheck sample_engine InfoLevel "start")
               (sample_world "warn" false)))
    else (Ok tt,
          record_call (EvCheck sample_engine InfoLevel "start")
            (sample_world "warn" false)).
Proof.
  split; [vm_compute; reflexivity|].
  split; [simpl; unfold DebugLevel, InfoLevel, DPanicLevel; lia|].
  destruct (infoLogger_Info_Infof_run sample_Sprintf
              {| level := InfoLevel; log := sample_engine |}
              (sample_zap_Logger WarnLevel false) (sample_world "warn" false))
    as (H & _);
    [vm_compute; reflexivity | simpl; unfold DebugLevel, InfoLevel, DPanicLevel; lia |].
  exact (H "start" [zap_Any "port" (IInt 80)]).
Defined.

(** X6.  [Infow] at a level below [DPanicLevel] that the engine does not
    enable makes the [Check] call and nothing else: the key/value
    arguments are not looked at, so a malformed list raises no diagnostic
    and, even in development mode, no panic. *)
Theorem infoLogger_Infow_disabled_skips_normalizer :
  forall il e w msg keyAndValues,
    zapHeap w !! log il = Some e ->
    level il < cfg_Level (zl_config e) ->
    level il < DPanicLevel ->
    infoLogger_Infow il msg keyAndValues w
      = (Ok tt, record_call (EvCheck (log il) (level il) msg) w).
Proof.
  intros il e w msg kvs He Hlt Hlvl. unfold infoLogger_Infow.
  rewrite (bind_ok _ _ _ _ _ (zap_Check_run _ _ _ _ msg He Hlvl)).
  assert (E : (cfg_Level (zl_config e) <=? level il) = false)
    by (apply Z.leb_gt; exact Hlt).
  unfold core_accepts. now rewrite E.
Qed.

Lemma infoLogger_Infow_disabled_skips_normalizer_witness :
  zapHeap (sample_world "info" true)
    !! log {| level := DebugLevel; log := sample_engine |}
    = Some (sample_zap_Logger InfoLevel true) /\
  level {| level := DebugLevel; log := sample_engine |}
    < cfg_Level (zl_config (sample_zap_Logger InfoLevel true)) /\
  level {| level := DebugLevel; log := sample_engine |} < DPanicLevel /\
  infoLogger_Infow {| level := DebugLevel; log := sample_engine |} "tick"
    [IInt 3; IFieldPtr zeroField; IString "odd"] (sample_world "info" true)
  = (Ok tt,
     record_call (EvCheck sample_engine DebugLevel "tick")
       (sample_world "info" true)).
Proof.
  split; [vm_compute; reflexivity|]. split; [vm_compute; reflexivity|].
  split; [vm_compute; reflexivity|].
  apply (infoLogger_Infow_disabled_skips_normalizer
           {| level := DebugLevel; log := sample_engine |}
           (sample_zap_Logger InfoLevel true));
    vm_compute; reflexivity.
Defined.

(** X7.  [Infow] with well-formed pairs, at a level from debug to error
    and for an entry the engine's core accepts.  After the [Check] comes
    one [Write] with what [handleFields] returned, and no diagnostic.
    Without arguments that is no field and the call returns.  With one
    pair or more the fields start with zero values, and the write panics
    in the encoder on their unknown type. *)
Theorem infoLogger_Infow_pairs_panic_in_encoder :
  forall il e w msg keyAndValues,
    zapHeap w !! log il = Some e ->
    DebugLevel <= level il < DPanicLevel ->
    core_accepts e w (trace w ++ [EvCheck (log il) (level il) msg])
      (level il) = true ->
    textual_pairs keyAndValues = true ->
    infoLogger_Infow il msg keyAndValues w =
      match keyAndValues with
      | [] =>
          (Ok tt,
           record_call (EvWrite (log il) (level il) msg [])
             (record_call (EvCheck (log il) (level il) msg) w))
      | _ =>
          (Panic UnknownFieldType,
           record_call
             (EvWrite (log il) (level il) msg (normalized keyAndValues []))
             (record_call (EvCheck (log il) (level il) msg) w))
      end.
Proof.
  intros il e w msg kvs He [_ Hlvl] Hacc Ht. unfold infoLogger_Infow.
  rewrite (bind_ok _ _ _ _ _ (zap_Check_run _ _ _ _ msg He Hlvl)).
  rewrite Hacc. destruct kvs as [|a kvs].
  - rewrite (bind_ok _ _ _ _ _
               (eq_refl : handleFields (log il) [] [] _ = (Ok [], _))).
    apply CheckedEntry_Write_run.
  - assert (EH : handleFields (log il) (a :: kvs) []
                   (record_call (EvCheck (log il) (level il) msg) w)
                 = (Ok (normalized (a :: kvs) []),
                    record_call (EvCheck (log il) (level il) msg) w)).
    { unfold handleFields, normalized.
      rewrite <- (app_nil_r (a :: kvs)) at 1.
      now rewrite (handleFields_loop_textual _ _ _ _ _ Ht). }
    rewrite (bind_ok _ _ _ _ _ EH), CheckedEntry_Write_run.
    rewrite has_unknown_field_normalized.
    assert (Hlen : (2 <= length (a :: kvs))%nat)
      by (apply textual_pairs_length; [exact Ht | discriminate]).
    apply Nat.leb_le in Hlen. now rewrite Hlen.
Qed.

Lemma infoLogger_Infow_pairs_panic_in_encoder_witness :
  zapHeap (sample_world "info" false)
    !! log {| level := InfoLevel; log := sample_engine |}
    = Some (sample_zap_Logger InfoLevel false) /\
  DebugLevel <= level {| level := InfoLevel; log := sample_engine |}
    < DPanicLevel /\
  core_accepts (sample_zap_Logger InfoLevel false) (sample_world "info" false)
    (trace (sample_world "info" false)
       ++ [EvCheck sample_engine InfoLevel "login"]) InfoLevel = true /\
  textual_pairs [IString "user"; IString "ann"] = true /\
  infoLogger_Infow {| level := InfoLevel; log := sample_engine |} "login"
    [IString "user"; IString "ann"] (sample_world "info" false)
  = (Panic UnknownFieldType,
     record_call
       (EvWrite sample_engine InfoLevel "login"
          (normalized [IString "user"; IString "ann"] []))
       (record_call (EvCheck sample_engine InfoLevel "login")
          (sample_world "info" false))).
Proof.
  split; [vm_compute; reflexivity|].
  split; [simpl; unfold DebugLevel, InfoLevel, DPanicLevel; lia|].
  split; [vm_compute; reflexivity|]. split; [reflexivity|].
  apply (infoLogger_Infow_pairs_panic_in_encoder
           {| level := InfoLevel; log := sample_engine |}
           (sample_zap_Logger InfoLevel false) (sample_world "info" false)
           "login" [IString "user"; IString "ann"]);
    [vm_compute; reflexivity | simpl; unfold DebugLevel, InfoLevel, DPanicLevel; lia
    | vm_compute; reflexivity | reflexivity].
Defined.

(** ** The verbosity gate, further *)

Lemma wrap8_period x k : wrap 8 (x + 256 * k) = wrap 8 x.
Proof.
  unfold wrap. change (2 ^ (8 - 1)) with 128. change (2 ^ 8) with 256.
  replace (x + 256 * k + 128) with (x + 128 + k * 256) by lia.
  now rewrite Z_mod_plus_full.
Qed.

Lemma wrap8_wrap64 x : wrap 8 (wrap 64 x) = wrap 8 x.
Proof.
  unfold wrap at 2.
  change (2 ^ (64 - 1)) with 9223372036854775808.
  change (2 ^ 64) with 18446744073709551616.
  pose proof (Z.div_mod (x + 9223372036854775808) 18446744073709551616) as D.
  set (q := (x + 9223372036854775808) / 18446744073709551616) in *.
  set (m := (x + 9223372036854775808) mod 18446744073709551616) in *.
  replace (m - 9223372036854775808)
    with (x + 256 * (- 72057594037927936 * q)) by lia.
  apply wrap8_period.
Qed.

(** X8.  For a verbosity between 0 and 128 on a live logger, [V] makes one
    [Enabled] query for the level [-V] on the logger's engine handle and
    returns an [infoLogger] bound to that level and that handle exactly
    when the engine's level is at most [-V]; otherwise it returns
    [disabledInfoLogeer]. *)
Theorem V_exact_up_to_128 :
  forall l s e w v,
    logHeap w !! l = Some s ->
    zapHeap w !! zapLogger_zapLogger s = Some e ->
    0 <= v <= 128 ->
    zapLogger_V l v w =
      (Ok (if cfg_Level (zl_config e) <=? - v
           then infoLoggerPtr {| level := - v; log := zapLogger_zapLogger s |}
           else disabledInfoLogeer),
       record_call (EvEnabled (zapLogger_zapLogger s) (- v)) w).
Proof.
  intros l s e w v Hl He Hv.
  rewrite (zapLogger_V_run _ _ _ _ v Hl He).
  now rewrite (zapcore_Level_neg v Hv).
Qed.

Lemma V_exact_up_to_128_witness :
  logHeap (sample_world "debug" false) !! sample_logger = Some sample_struct /\
  zapHeap (sample_world "debug" false) !! zapLogger_zapLogger sample_struct
    = Some (sample_zap_Logger DebugLevel false) /\
  0 <= 1 <= 128 /\
  zapLogger_V sample_logger 1 (sample_world "debug" false) =
    (Ok (if cfg_Level (zl_config (sample_zap_Logger DebugLevel false)) <=? - 1
         then infoLoggerPtr
                {| level := - 1; log := zapLogger_zapLogger sample_struct |}
         else disabledInfoLogeer),
     record_call (EvEnabled (zapLogger_zapLogger sample_struct) (- 1))
       (sample_world "debug" false)).
Proof.
  split; [vm_compute; reflexivity|]. split; [vm_compute; reflexivity|].
  split; [lia|].
  apply (V_exact_up_to_128 sample_logger sample_struct
           (sample_zap_Logger DebugLevel false));
    [vm_compute; reflexivity | vm_compute; reflexivity | lia].
Defined.

Lemma V_monotone_up_to_128_witness :
  0 <= 0 /\ 0 < 1 /\ 1 <= 128 /\
  gate_enabled sample_logger 1 (sample_world "debug" false) = true /\
  gate_enabled sample_logger 0 (sample_world "debug" false) = true.
Proof.
  split; [lia|]. split; [lia|]. split; [lia|].
  split; [vm_compute; reflexivity|].
  apply (V_monotone_up_to_128 sample_logger (sample_world "debug" false) 0 1);
    [lia | lia | lia | vm_compute; reflexivity].
Defined.

(** X10.  [V] reads the verbosity modulo 256: verbosities that differ by a
    multiple of 256 give the same outcome and the same engine query, on
    any logger and in any state. *)
Theorem V_period_256 :
  forall l v k w, zapLogger_V l (v + 256 * k) w = zapLogger_V l v w.
Proof.
  intros l v k w. unfold zapLogger_V.
  assert (E : zapcore_Level (int_mul (-1) (v + 256 * k))
              = zapcore_Level (int_mul (-1) v)).
  { unfold zapcore_Level, int_mul, int. rewrite !wrap8_wrap64.
    replace (-1 * (v + 256 * k)) with (-1 * v + 256 * (- k)) by lia.
    apply wrap8_period. }
  now rewrite E.
Qed.

(** X11.  The level of the logger [V] returns never leaves the range of
    [zapcore.Level]: whatever verbosity is asked for, a returned
    [infoLogger] is bound to a level from -128 to 127, and to the engine
    handle of the logger [V] was called on. *)
Theorem V_level_in_int8_range :
  forall l s w v il,
    logHeap w !! l = Some s ->
    fst (zapLogger_V l v w) = Ok (infoLoggerPtr il) ->
    -128 <= level il <= 127 /\ log il = zapLogger_zapLogger s.
Proof.
  intros l s w v il Hl. unfold zapLogger_V.
  rewrite (bind_ok _ _ _ _ _ (log_deref_ok _ _ _ Hl)).
  unfold bind.
  destruct (zap_Core_Enabled _ _ w) as [[[|]|p] w1]; simpl;
    intros H; try discriminate.
  injection H as <-. simpl. split; [|reflexivity].
  unfold zapcore_Level, wrap.
  change (2 ^ (8 - 1)) with 128. change (2 ^ 8) with 256.
  pose proof (Z.mod_pos_bound (int_mul (-1) v + 128) 256). lia.
Qed.

Lemma V_level_in_int8_range_witness :
  logHeap (sample_world "info" false) !! sample_logger = Some sample_struct /\
  fst (zapLogger_V sample_logger 129 (sample_world "info" false))
    = Ok (infoLoggerPtr {| level := 127; log := sample_engine |}) /\
  -128 <= level {| level := 127; log := sample_engine |} <= 127 /\
  log {| level := 127; log := sample_engine |}
    = zapLogger_zapLogger sample_struct.
Proof.
  split; [vm_compute; reflexivity|]. split; [vm_compute; reflexivity|].
  apply (V_level_in_int8_range sample_logger sample_struct
           (sample_world "info" false) 129);
    vm_compute; reflexivity.
Defined.

(** X12.  The gate and the logger it returns.  When [V] at verbosity 0 or
    1 decides "enabled" on a live logger, the returned logger reports
    [Enable() = true], and an [Info] call on it, made in the state [V]
    left, asks the engine at level [-V] through the same engine handle.
    The gate's decision is not the last word: the record is written, with
    the caller's fields, only if the sampler lets the entry through, and
    the write panics in the encoder on a field of unknown type. *)
Theorem V_then_Info_checks_then_writes :
  forall l s e w v msg fields,
    logHeap w !! l = Some s ->
    zapHeap w !! zapLogger_zapLogger s = Some e ->
    0 <= v <= 1 ->
    cfg_Level (zl_config e) <= - v ->
    exists il w1,
      zapLogger_V l v w = (Ok il, w1) /\
      InfoLogger_Enable il = true /\
      InfoLogger_Info il msg fields w1 =
        if sampler w (trace w1 ++ [EvCheck (zapLogger_zapLogger s) (- v) msg])
        then (if has_unknown_field fields then Panic UnknownFieldType
              else Ok tt,
              record_call (EvWrite (zapLogger_zapLogger s) (- v) msg fields)
                (record_call (EvCheck (zapLogger_zapLogger s) (- v) msg) w1))
        else (Ok tt,
              record_call (EvCheck (zapLogger_zapLogger s) (- v) msg) w1).
Proof.
  intros l s e w v msg fields Hl He Hv Hle.
  assert (E : (cfg_Level (zl_config e) <=? - v) = true)
    by (apply Z.leb_le; exact Hle).
  assert (Hv' : 0 <= v <= 128) by lia.
  do 2 eexists. split.
  - rewrite (zapLogger_V_run _ _ _ _ v Hl He), (zapcore_Level_neg v Hv'), E.
    reflexivity.
  - split; [reflexivity|]. simpl. unfold infoLogger_Info. simpl.
    set (w1 := record_call (EvEnabled (zapLogger_zapLogger s) (- v)) w).
    assert (He1 : zapHeap w1 !! zapLogger_zapLogger s = Some e) by exact He.
    assert (Hlvl : - v < DPanicLevel) by (unfold DPanicLevel; lia).
    rewrite (bind_ok _ _ _ _ _ (zap_Check_run _ _ _ _ msg He1 Hlvl)).
    assert (Hacc : forall t, core_accepts e w1 t (- v) = sampler w t).
    { intros t. unfold core_accepts. rewrite E.
      assert (R1 : (DebugLevel <=? - v) = true)
        by (apply Z.leb_le; unfold DebugLevel; lia).
      assert (R2 : (- v <=? FatalLevel) = true)
        by (apply Z.leb_le; unfold FatalLevel; lia).
      now rewrite R1, R2. }
    rewrite Hacc. destruct (sampler w _); [|reflexivity].
    apply CheckedEntry_Write_run.
Qed.

Lemma V_then_Info_checks_then_writes_witness :
  logHeap (sample_world "debug" false) !! sample_logger = Some sample_struct /\
  zapHeap (sample_world "debug" false) !! zapLogger_zapLogger sample_struct
    = Some (sample_zap_Logger DebugLevel false) /\
  0 <= 1 <= 1 /\
  cfg_Level (zl_config (sample_zap_Logger DebugLevel false)) <= - 1 /\
  exists il w1,
    zapLogger_V sample_logger 1 (sample_world "debug" false) = (Ok il, w1) /\
    InfoLogger_Enable il = true /\
    InfoLogger_Info il "detail" [zap_Any "n" (IInt 3)] w1 =
      if sampler (sample_world "debug" false)
           (trace w1
              ++ [EvCheck (zapLogger_zapLogger sample_struct) (- 1) "detail"])
      then (if has_unknown_field [zap_Any "n" (IInt 3)]
            then Panic UnknownFieldType else Ok tt,
            record_call
              (EvWrite (zapLogger_zapLogger sample_struct) (- 1) "detail"
                 [zap_Any "n" (IInt 3)])
              (record_call
                 (EvCheck (zapLogger_zapLogger sample_struct) (- 1) "detail")
                 w1))
      else (Ok tt,
            record_call
              (EvCheck (zapLogger_zapLogger sample_struct) (- 1) "detail") w1).
Proof.
  split; [vm_compute; reflexivity|]. split; [vm_compute; reflexivity|].
  split; [lia|]. split; [vm_compute; discriminate|].
  apply (V_then_Info_checks_then_writes sample_logger sample_struct
           (sample_zap_Logger DebugLevel false));
    [vm_compute; reflexivity | vm_compute; reflexivity | lia
    | vm_compute; discriminate].
Defined.

(** ** Construction, further *)

Lemma New_unfold ToLower NewOptions opts :
  New ToLower NewOptions (Some opts) =
    (do r <- zap_Config_Build (config_of_options ToLower opts) PanicLevel 1;
     match r with
     | inr err => raise BuildFailed
     | inl l =>
         do named <- zap_Named l (Name opts);
         do logger <- log_alloc {|
           zapLogger_zapLogger := named;
           zapLogger_infoLogger := {| level := InfoLevel; log := l |} |};
         do _ <- zap_RedirectStdLog l;
         ret logger
     end).
Proof. reflexivity. Qed.

(** Everything [New] does when the engine can build the logger. *)
Lemma New_Some_built ToLower NewOptions opts w :
  buildable opts w = true ->
  exists h h' l w',
    New ToLower NewOptions (Some opts) w = (Ok l, w') /\
    zapHeap w !! h = None /\
    logHeap w !! l = None /\
    zapHeap w' !! h = Some (built_logger ToLower opts) /\
    logHeap w' !! l
      = Some {| zapLogger_zapLogger := h';
                zapLogger_infoLogger := {| level := InfoLevel; log := h |} |} /\
    (Name opts = "" -> h' = h) /\
    (Name opts <> "" ->
     h' <> h /\ zapHeap w !! h' = None /\
     zapHeap w' !! h' = Some (named_logger ToLower opts)) /\
    trace w' = trace w ++ [EvRedirectStdLog h] /\
    unopenable w' = unopenable w.
Proof.
  intros B. unfold buildable in B.
  apply andb_true_iff in B as [Henc Hsinks]. apply negb_true_iff in Hsinks.
  rewrite New_unfold.
  destruct (zap_Config_Build_ok (config_of_options ToLower opts) PanicLevel 1 w
              Henc Hsinks) as (h & w1 & EB & Hh & G1).
  assert (Hw1 : w1 = snd (zap_alloc (built_logger ToLower opts) w) /\
                h = fresh (dom (zapHeap w))).
  { unfold zap_Config_Build in EB. simpl in EB, Henc, Hsinks.
    rewrite Henc, Hsinks in EB. simpl in EB.
    unfold bind, zap_alloc, ret in EB. injection EB as <- <-. now split. }
  destruct Hw1 as [-> ->].
  set (h := fresh (dom (zapHeap w))) in *.
  assert (Hnone : zapHeap w !! h = None)
    by (apply not_elem_of_dom, is_fresh).
  rewrite (bind_ok _ _ _ _ _ EB).
  destruct (String.eqb_spec (Name opts) "") as [Hname|Hname].
  - assert (EN : zap_Named h (Name opts)
                   (snd (zap_alloc (built_logger ToLower opts) w))
                 = (Ok h, snd (zap_alloc (built_logger ToLower opts) w))).
    { unfold zap_Named.
      rewrite (bind_ok _ _ _ _ _ (zap_deref_ok _ _ _ Hh)).
      now rewrite Hname. }
    rewrite (bind_ok _ _ _ _ _ EN).
    destruct (log_alloc_fresh w (snd (zap_alloc (built_logger ToLower opts) w))
                {| zapLogger_zapLogger := h;
                   zapLogger_infoLogger := {| level := InfoLevel; log := h |} |}
                G1) as (l & w3 & EL & Hlnone & Hl & Hz).
    rewrite (bind_ok _ _ _ _ _ EL).
    assert (Hh3 : zapHeap w3 !! h = Some (built_logger ToLower opts))
      by (rewrite Hz; exact Hh).
    unfold zap_RedirectStdLog.
    rewrite (bind_ok _ _ _ _ _
               (bind_ok _ _ _ _ _ (zap_deref_ok _ _ _ Hh3))).
    exists h, h, l, (record_call (EvRedirectStdLog h) w3).
    split; [reflexivity|]. split; [exact Hnone|]. split; [exact Hlnone|].
    split; [exact Hh3|]. split; [exact Hl|]. split; [reflexivity|].
    split; [congruence|].
    unfold log_alloc in EL. injection EL as _ <-. split; reflexivity.
  - set (w1 := snd (zap_alloc (built_logger ToLower opts) w)) in *.
    set (h' := fresh (dom (zapHeap w1))).
    assert (Hh'1 : zapHeap w1 !! h' = None)
      by (apply not_elem_of_dom, is_fresh).
    assert (Hne : h' <> h) by congruence.
    assert (Hh'0 : zapHeap w !! h' = None).
    { destruct (zapHeap w !! h') as [x|] eqn:E; [|reflexivity].
      rewrite (proj1 G1 _ _ E) in Hh'1. discriminate. }
    pose proof (monotone_zap_alloc (named_logger ToLower opts) w1) as G2.
    destruct (log_alloc_fresh w (snd (zap_alloc (named_logger ToLower opts) w1))
                {| zapLogger_zapLogger := h';
                   zapLogger_infoLogger := {| level := InfoLevel; log := h |} |}
                (grows_trans _ _ _ G1 G2)) as (l & w3 & EL & Hlnone & Hl & Hz).
    assert (EN : zap_Named h (Name opts) w1
                 = (Ok h', snd (zap_alloc (named_logger ToLower opts) w1))).
    { unfold zap_Named.
      rewrite (bind_ok _ _ _ _ _ (zap_deref_ok _ _ _ Hh)).
      destruct (String.eqb_spec (Name opts) ""); [contradiction|].
      reflexivity. }
    rewrite (bind_ok _ _ _ _ _ EN), (bind_ok _ _ _ _ _ EL).
    assert (Hh3 : zapHeap w3 !! h = Some (built_logger ToLower opts))
      by (rewrite Hz; apply (proj1 G2), Hh).
    unfold zap_RedirectStdLog.
    rewrite (bind_ok _ _ _ _ _
               (bind_ok _ _ _ _ _ (zap_deref_ok _ _ _ Hh3))).
    exists h, h', l, (record_call (EvRedirectStdLog h) w3).
    split; [reflexivity|]. split; [exact Hnone|]. split; [exact Hlnone|].
    split; [exact Hh3|]. split; [exact Hl|]. split; [congruence|].
    split.
    + intros _. split; [exact Hne|]. split; [exact Hh'0|].
      simpl. rewrite Hz. simpl. apply lookup_insert_eq.
    + unfold log_alloc in EL. injection EL as _ <-. split; reflexivity.
Qed.

Lemma New_handles_config ToLower NewOptions opts w :
  buildable opts w = true ->
  exists l w' s e e',
    New ToLower NewOptions (Some opts) w = (Ok l, w') /\
    logHeap w' !! l = Some s /\
    level (zapLogger_infoLogger s) = InfoLevel /\
    zapHeap w' !! zapLogger_zapLogger s = Some e /\
    zapHeap w' !! log (zapLogger_infoLogger s) = Some e' /\
    e' = built_logger ToLower opts /\
    (e = built_logger ToLower opts \/ e = named_logger ToLower opts) /\
    zl_name e = Name opts /\
    (Name opts = "" <->
     zapLogger_zapLogger s = log (zapLogger_infoLogger s)) /\
    trace w' = trace w ++ [EvRedirectStdLog (log (zapLogger_infoLogger s))] /\
    logHeap w !! l = None /\
    zapHeap w !! zapLogger_zapLogger s = None /\
    zapHeap w !! log (zapLogger_infoLogger s) = None.
Proof.
  intros B.
  destruct (New_Some_built ToLower NewOptions opts w B)
    as (h & h' & l & w' & Hrun & Hnone & Hlnone & Hh & Hl & Hsame & Hdiff
        & Htrace & _).
  destruct (String.eqb_spec (Name opts) "") as [Hname|Hname].
  - specialize (Hsame Hname). subst h'.
    exists l, w',
      {| zapLogger_zapLogger := h;
         zapLogger_infoLogger := {| level := InfoLevel; log := h |} |},
      (built_logger ToLower opts), (built_logger ToLower opts).
    split; [exact Hrun|]. split; [exact Hl|]. simpl.
    repeat split; auto.
  - destruct (Hdiff Hname) as (Hne & Hnone' & Hh').
    exists l, w',
      {| zapLogger_zapLogger := h';
         zapLogger_infoLogger := {| level := InfoLevel; log := h |} |},
      (named_logger ToLower opts), (built_logger ToLower opts).
    split; [exact Hrun|]. split; [exact Hl|]. simpl.
    repeat split; auto; congruence.
Qed.

(** X13.  [New] honours the configuration.  When the engine can build the
    logger, both engine handles of the logger [New] returns carry one
    configuration, taken field by field from the options: the level read
    from the level text, the development, stack-trace and caller flags,
    the format as encoding, the two lists of output paths; sampling is
    100/100, stack traces start at [PanicLevel], one caller frame is
    skipped, and levels are printed in colour exactly when the format is
    "console" and colour is switched on. *)
Theorem New_config_follows_options :
  forall ToLower NewOptions opts w,
    buildable opts w = true ->
    exists l w' s e e',
      New ToLower NewOptions (Some opts) w = (Ok l, w') /\
      logHeap w' !! l = Some s /\
      zapHeap w' !! zapLogger_zapLogger s = Some e /\
      zapHeap w' !! log (zapLogger_infoLogger s) = Some e' /\
      zl_config e' = zl_config e /\
      cfg_Level (zl_config e) = level_of_text ToLower (Level opts) /\
      cfg_Development (zl_config e) = Development opts /\
      cfg_DisableStacktrace (zl_config e) = DisableStacktrace opts /\
      cfg_DisableCaller (zl_config e) = DisableCaller opts /\
      cfg_Encoding (zl_config e) = Format opts /\
      cfg_OutputPaths (zl_config e) = OutputPaths opts /\
      cfg_ErrorOutputPaths (zl_config e) = ErrorOutputPaths opts /\
      cfg_Sampling (zl_config e) = {| Initial := 100; Thereafter := 100 |} /\
      zl_addStacktrace e = PanicLevel /\
      zl_callerSkip e = 1 /\
      (EncodeLevel (cfg_EncoderConfig (zl_config e)) = CapitalColorLevelEncoder
       <-> Format opts = "console" /\ EnableColor opts = true).
Proof.
  intros ToLower NewOptions opts w B.
  destruct (New_handles_config ToLower NewOptions opts w B)
    as (l & w' & s & e & e' & Hrun & Hl & _ & He & He' & -> & Hcase & _).
  exists l, w', s, e, (built_logger ToLower opts).
  split; [exact Hrun|]. split; [exact Hl|]. split; [exact He|].
  split; [exact He'|].
  assert (Hcfg : zl_config e = config_of_options ToLower opts /\
                 zl_addStacktrace e = PanicLevel /\ zl_callerSkip e = 1)
    by (destruct Hcase as [-> | ->]; repeat split).
  destruct Hcfg as (Hcfg & Hst & Hskip). rewrite Hcfg.
  repeat (split; [reflexivity|]).
  split; [exact Hst|]. split; [exact Hskip|].
  simpl. unfold consoleFormat.
  destruct (String.eqb_spec (Format opts) "console") as [Hf|Hf];
    destruct (EnableColor opts); simpl; split; intros H;
    try discriminate; try (destruct H; congruence); auto.
Qed.

Lemma New_config_follows_options_witness :
  buildable console_options empty_world = true /\
  exists l w' s e e',
    New ascii_ToLower (sample_options "info" false) (Some console_options) empty_world
      = (Ok l, w') /\
    logHeap w' !! l = Some s /\
    zapHeap w' !! zapLogger_zapLogger s = Some e /\
    zapHeap w' !! log (zapLogger_infoLogger s) = Some e' /\
    zl_config e' = zl_config e /\
    cfg_Level (zl_config e) = level_of_text ascii_ToLower (Level console_options) /\
    cfg_Development (zl_config e) = Development console_options /\
    cfg_DisableStacktrace (zl_config e) = DisableStacktrace console_options /\
    cfg_DisableCaller (zl_config e) = DisableCaller console_options /\
    cfg_Encoding (zl_config e) = Format console_options /\
    cfg_OutputPaths (zl_config e) = OutputPaths console_options /\
    cfg_ErrorOutputPaths (zl_config e) = ErrorOutputPaths console_options /\
    cfg_Sampling (zl_config e) = {| Initial := 100; Thereafter := 100 |} /\
    zl_addStacktrace e = PanicLevel /\
    zl_callerSkip e = 1 /\
    (EncodeLevel (cfg_EncoderConfig (zl_config e)) = CapitalColorLevelEncoder
     <-> Format console_options = "console"
         /\ EnableColor console_options = true).
Proof.
  split; [reflexivity|].
  apply (New_config_follows_options ascii_ToLower (sample_options "info" false)
           console_options empty_world).
  reflexivity.
Defined.

Lemma monotone_zap_Config_Build cfg a k : monotone (zap_Config_Build cfg a k).
Proof.
  intros w. unfold zap_Config_Build.
  destruct (negb _); [apply grows_refl|].
  destruct (existsb _ _); [apply grows_refl|].
  apply (monotone_bind _ _ (monotone_zap_alloc _) (fun h => monotone_ret _)).
Qed.

Lemma monotone_zap_RedirectStdLog h : monotone (zap_RedirectStdLog h).
Proof. unfold zap_RedirectStdLog. mono. Qed.

Lemma monotone_New ToLower NewOptions opts : monotone (New ToLower NewOptions opts).
Proof.
  unfold New.
  apply monotone_bind; [destruct opts; mono|]. intros o.
  apply monotone_bind; [apply monotone_zap_Config_Build|]. intros [h|err].
  - apply monotone_bind; [apply monotone_zap_Named|]. intros named.
    apply monotone_bind; [apply monotone_log_alloc|]. intros logger.
    apply monotone_bind; [apply monotone_zap_RedirectStdLog|]. intros _.
    apply monotone_ret.
  - apply monotone_raise.
Qed.

(** X14.  The objects [New] creates.  When the engine can build the
    logger, [New] returns a new logger bound to [InfoLevel]; its embedded
    info logger points to the engine logger as built, without a name,
    while its own engine handle points to the logger named by the
    options: the same object for an empty name, a second new object with
    that name otherwise.  The only call recorded is the redirection of the
    standard log to the unnamed engine logger, and every object that
    existed before is still there unchanged. *)
Theorem New_creates_named_and_unnamed_handles :
  forall ToLower NewOptions opts w,
    buildable opts w = true ->
    exists l w' s e e',
      New ToLower NewOptions (Some opts) w = (Ok l, w') /\
      logHeap w !! l = None /\
      logHeap w' !! l = Some s /\
      level (zapLogger_infoLogger s) = InfoLevel /\
      zapHeap w !! zapLogger_zapLogger s = None /\
      zapHeap w !! log (zapLogger_infoLogger s) = None /\
      zapHeap w' !! zapLogger_zapLogger s = Some e /\
      zapHeap w' !! log (zapLogger_infoLogger s) = Some e' /\
      zl_name e = Name opts /\
      zl_name e' = "" /\
      zl_context e = [] /\
      (Name opts = "" <->
       zapLogger_zapLogger s = log (zapLogger_infoLogger s)) /\
      trace w'
        = trace w ++ [EvRedirectStdLog (log (zapLogger_infoLogger s))] /\
      grows w w'.
Proof.
  intros ToLower NewOptions opts w B.
  destruct (New_handles_config ToLower NewOptions opts w B)
    as (l & w' & s & e & e' & Hrun & Hl & Hlvl & He & He' & -> & Hcase
        & Hname & Hiff & Htrace & Hlnone & Hn1 & Hn2).
  exists l, w', s, e, (built_logger ToLower opts).
  repeat (split; [assumption || reflexivity|]).
  split; [destruct Hcase as [-> | ->]; reflexivity|].
  split; [exact Hiff|]. split; [exact Htrace|].
  pose proof (monotone_New ToLower NewOptions (Some opts) w) as G.
  now rewrite Hrun in G.
Qed.

Lemma New_creates_named_and_unnamed_handles_witness :
  buildable console_options (sample_world "info" false) = true /\
  exists l w' s e e',
    New ascii_ToLower (sample_options "info" false) (Some console_options)
      (sample_world "info" false) = (Ok l, w') /\
    logHeap (sample_world "info" false) !! l = None /\
    logHeap w' !! l = Some s /\
    level (zapLogger_infoLogger s) = InfoLevel /\
    zapHeap (sample_world "info" false) !! zapLogger_zapLogger s = None /\
    zapHeap (sample_world "info" false) !! log (zapLogger_infoLogger s)
      = None /\
    zapHeap w' !! zapLogger_zapLogger s = Some e /\
    zapHeap w' !! log (zapLogger_infoLogger s) = Some e' /\
    zl_name e = Name console_options /\
    zl_name e' = "" /\
    zl_context e = [] /\
    (Name console_options = "" <->
     zapLogger_zapLogger s = log (zapLogger_infoLogger s)) /\
    trace w'
      = trace (sample_world "info" false)
          ++ [EvRedirectStdLog (log (zapLogger_infoLogger s))] /\
    grows (sample_world "info" false) w'.
Proof.
  split; [reflexivity|].
  apply (New_creates_named_and_unnamed_handles ascii_ToLower (sample_options "info" false)
           console_options (sample_world "info" false)).
  reflexivity.
Defined.

(** X15.  When the engine cannot build the logger (an encoding it does not
    register, or a sink it cannot open) [New] panics with the build
    failure and leaves the state as it found it: no object is created and
    the standard log is not redirected. *)
Theorem New_build_failure_leaves_state :
  forall ToLower NewOptions opts w,
    buildable opts w = false ->
    New ToLower NewOptions (Some opts) w = (Panic BuildFailed, w).
Proof.
  intros ToLower NewOptions opts w B. rewrite New_unfold.
  destruct (zap_Config_Build_fails (config_of_options ToLower opts) PanicLevel 1 w B)
    as (err & EB).
  now rewrite (bind_ok _ _ _ _ _ EB).
Qed.

Lemma New_build_failure_leaves_state_witness :
  buildable (with_Level "info"
               {| Level := ""; Format := "xml"; EnableColor := false;
                  Development := false; DisableStacktrace := false;
                  DisableCaller := false; OutputPaths := ["stdout"];
                  ErrorOutputPaths := ["stderr"]; Name := "" |})
    (sample_world "info" false) = false /\
  New ascii_ToLower (sample_options "info" false)
    (Some (with_Level "info"
             {| Level := ""; Format := "xml"; EnableColor := false;
                Development := false; DisableStacktrace := false;
                DisableCaller := false; OutputPaths := ["stdout"];
                ErrorOutputPaths := ["stderr"]; Name := "" |}))
    (sample_world "info" false)
  = (Panic BuildFailed, sample_world "info" false).
Proof.
  split; [reflexivity|].
  apply (New_build_failure_leaves_state ascii_ToLower (sample_options "info" false)).
  reflexivity.
Defined.

(** The levels a level text can stand for. *)
Lemma unmarshalText_range text lvl :
  unmarshalText text = Some lvl -> DebugLevel <= lvl <= FatalLevel.
Proof.
  unfold unmarshalText.
  repeat match goal with
         | |- context [if ?b then _ else _] => destruct b
         end;
    intros [= <-]; unfold DebugLevel, InfoLevel, WarnLevel, ErrorLevel,
                     DPanicLevel, PanicLevel, FatalLevel; lia.
Qed.

Lemma level_of_text_range ToLower text :
  DebugLevel <= level_of_text ToLower text <= FatalLevel.
Proof.
  unfold level_of_text, UnmarshalText.
  destruct (unmarshalText text) as [lvl|] eqn:E1.
  - exact (unmarshalText_range _ _ E1).
  - destruct (unmarshalText (ToLower text)) as [lvl|] eqn:E2.
    + exact (unmarshalText_range _ _ E2).
    + unfold DebugLevel, InfoLevel, FatalLevel. lia.
Qed.

(** X16.  [New] then [V].  On the logger [New] returns, a verbosity
    between 0 and 128 is enabled exactly when the level read from the
    level text of the options is at most [-V]. *)
Theorem New_then_V_follows_level_text :
  forall ToLower NewOptions opts w v,
    buildable opts w = true ->
    0 <= v <= 128 ->
    exists l w',
      New ToLower NewOptions (Some opts) w = (Ok l, w') /\
      gate_enabled l v w' = (level_of_text ToLower (Level opts) <=? - v).
Proof.
  intros ToLower NewOptions opts w v B Hv.
  destruct (New_handles_config ToLower NewOptions opts w B)
    as (l & w' & s & e & e' & Hrun & Hl & _ & He & _ & _ & Hcase & _).
  exists l, w'. split; [exact Hrun|].
  unfold gate_enabled.
  rewrite (zapLogger_V_run _ _ _ _ v Hl He), (zapcore_Level_neg v Hv).
  assert (Hcfg : cfg_Level (zl_config e) = level_of_text ToLower (Level opts))
    by (destruct Hcase as [-> | ->]; reflexivity).
  rewrite Hcfg. simpl.
  now destruct (level_of_text ToLower (Level opts) <=? - v).
Qed.

Lemma New_then_V_follows_level_text_witness :
  buildable (sample_options "Debug" false) empty_world = true /\
  0 <= 1 <= 128 /\
  exists l w',
    New ascii_ToLower (sample_options "info" false) (Some (sample_options "Debug" false))
      empty_world = (Ok l, w') /\
    gate_enabled l 1 w'
      = (level_of_text ascii_ToLower (Level (sample_options "Debug" false)) <=? - 1).
Proof.
  split; [reflexivity|]. split; [lia|].
  apply (New_then_V_follows_level_text ascii_ToLower (sample_options "info" false)
           (sample_options "Debug" false) empty_world 1);
    [reflexivity | lia].
Defined.

(** X17.  No level text opens verbosity 2.  The level names the engine
    reads stop at debug, and an unreadable text counts as info, so on a
    logger returned by [New], whatever the options, [V] returns
    [disabledInfoLogeer] for every verbosity from 2 to 128. *)
Theorem New_never_enables_verbosity_2 :
  forall ToLower NewOptions opts w v,
    buildable opts w = true ->
    2 <= v <= 128 ->
    exists l w',
      New ToLower NewOptions (Some opts) w = (Ok l, w') /\
      fst (zapLogger_V l v w') = Ok disabledInfoLogeer.
Proof.
  intros ToLower NewOptions opts w v B Hv.
  destruct (New_handles_config ToLower NewOptions opts w B)
    as (l & w' & s & e & e' & Hrun & Hl & _ & He & _ & _ & Hcase & _).
  exists l, w'. split; [exact Hrun|].
  rewrite (zapLogger_V_run _ _ _ _ v Hl He).
  rewrite (zapcore_Level_neg v) by lia.
  assert (Hcfg : cfg_Level (zl_config e) = level_of_text ToLower (Level opts))
    by (destruct Hcase as [-> | ->]; reflexivity).
  pose proof (level_of_text_range ToLower (Level opts)) as Hr.
  unfold DebugLevel in Hr.
  assert (E : (cfg_Level (zl_config e) <=? - v) = false)
    by (apply Z.leb_gt; lia).
  now rewrite E.
Qed.

Lemma New_never_enables_verbosity_2_witness :
  buildable (sample_options "debug" true) empty_world = true /\
  2 <= 2 <= 128 /\
  exists l w',
    New ascii_ToLower (sample_options "info" false) (Some (sample_options "debug" true))
      empty_world = (Ok l, w') /\
    fst (zapLogger_V l 2 w') = Ok disabledInfoLogeer.
Proof.
  split; [reflexivity|]. split; [lia|].
  apply (New_never_enables_verbosity_2 ascii_ToLower (sample_options "info" false)
           (sample_options "debug" true) empty_world 2);
    [reflexivity | lia].
Defined.

(** ** Derivation, further *)

Lemma zap_Named_full h e s w :
  zapHeap w !! h = Some e ->
  exists h' w' e',
    zap_Named h s w = (Ok h', w') /\
    zapHeap w' !! h' = Some e' /\
    zl_config e' = zl_config e /\
    zl_context e' = zl_context e /\
    zl_name e' = joined_name (zl_name e) s /\
    trace w' = trace w /\
    grows w w'.
Proof.
  intros He. unfold zap_Named, joined_name.
  rewrite (bind_ok _ _ _ _ _ (zap_deref_ok _ _ _ He)).
  destruct (String.eqb s "").
  - exists h, w, e. repeat split; auto.
  - do 3 eexists. split; [reflexivity|].
    split; [apply lookup_insert_eq|]. repeat split; try reflexivity;
      apply (monotone_zap_alloc _ w).
Qed.

Lemma zap_With_nil h e w :
  zapHeap w !! h = Some e -> zap_With h [] w = (Ok h, w).
Proof.
  intros He. unfold zap_With.
  now rewrite (bind_ok _ _ _ _ _ (zap_deref_ok _ _ _ He)).
Qed.

Lemma zap_With_unknown h e fs w :
  zapHeap w !! h = Some e ->
  has_unknown_field fs = true ->
  zap_With h fs w = (Panic UnknownFieldType, w).
Proof.
  intros He Hu. unfold zap_With.
  rewrite (bind_ok _ _ _ _ _ (zap_deref_ok _ _ _ He)).
  destruct fs as [|f fs]; [discriminate|]. now rewrite Hu.
Qed.

(** The logger [NewLogger] wraps around an engine logger. *)
Lemma NewLogger_full w w1 h :
  grows w w1 ->
  exists l' w2,
    NewLogger h w1 = (Ok l', w2) /\
    logHeap w !! l' = None /\
    logHeap w2 !! l'
      = Some {| zapLogger_zapLogger := h;
                zapLogger_infoLogger := {| level := InfoLevel; log := h |} |} /\
    zapHeap w2 = zapHeap w1 /\
    trace w2 = trace w1.
Proof.
  intros G. unfold NewLogger.
  destruct (log_alloc_fresh w w1
              {| zapLogger_zapLogger := h;
                 zapLogger_infoLogger := {| level := InfoLevel; log := h |} |} G)
    as (l' & w2 & EL & Hnone & Hl & Hz).
  exists l', w2. repeat (split; [assumption|]).
  unfold log_alloc in EL. now injection EL as _ <-.
Qed.

(** Two live loggers over engine objects with one configuration pass the
    same verbosities. *)
Lemma gate_same_config l s e w l' s' e' w' v :
  logHeap w !! l = Some s ->
  zapHeap w !! zapLogger_zapLogger s = Some e ->
  logHeap w' !! l' = Some s' ->
  zapHeap w' !! zapLogger_zapLogger s' = Some e' ->
  zl_config e' = zl_config e ->
  gate_enabled l' v w' = gate_enabled l v w.
Proof.
  intros Hl He Hl' He' Hcfg. unfold gate_enabled.
  rewrite (zapLogger_V_run _ _ _ _ v Hl He).
  rewrite (zapLogger_V_run _ _ _ _ v Hl' He'). rewrite Hcfg. simpl.
  now destruct (cfg_Level (zl_config e) <=? _).
Qed.

(** X18.  The logger [WithName] returns.  On a live logger [WithName]
    makes no emission call and returns a new logger bound to [InfoLevel]
    whose two engine handles are one and the same: the engine logger that
    [Named] derived, with the configuration and bound fields of the
    receiver's and the segment joined to its name.  The new logger passes
    exactly the verbosities the receiver passes. *)
Theorem WithName_derived_logger :
  forall l s e w name,
    logHeap w !! l = Some s ->
    zapHeap w !! zapLogger_zapLogger s = Some e ->
    exists l' w' h' e',
      zapLogger_WithName l name w = (Ok l', w') /\
      logHeap w' !! l'
        = Some {| zapLogger_zapLogger := h';
                  zapLogger_infoLogger :=
                    {| level := InfoLevel; log := h' |} |} /\
      zapHeap w' !! h' = Some e' /\
      zl_config e' = zl_config e /\
      zl_context e' = zl_context e /\
      zl_name e' = joined_name (zl_name e) name /\
      trace w' = trace w /\
      forall v, gate_enabled l' v w' = gate_enabled l v w.
Proof.
  intros l s e w name Hl He. unfold zapLogger_WithName.
  rewrite (bind_ok _ _ _ _ _ (log_deref_ok _ _ _ Hl)).
  destruct (zap_Named_full _ _ name w He)
    as (h' & w1 & e' & E1 & He' & Hcfg & Hctx & Hname & Htr & G1).
  destruct (NewLogger_full w w1 h' G1) as (l' & w2 & E2 & _ & Hl' & Hz & Htr2).
  exists l', w2, h', e'. rewrite (bind_ok _ _ _ _ _ E1).
  split; [exact E2|]. split; [exact Hl'|].
  assert (He2 : zapHeap w2 !! h' = Some e') by (rewrite Hz; exact He').
  split; [exact He2|]. split; [exact Hcfg|]. split; [exact Hctx|].
  split; [exact Hname|]. split; [congruence|].
  intros v. exact (gate_same_config _ _ _ _ _ _ _ _ v Hl He Hl' He2 Hcfg).
Qed.

Lemma WithName_derived_logger_witness :
  logHeap (sample_world "warn" false) !! sample_logger = Some sample_struct /\
  zapHeap (sample_world "warn" false) !! zapLogger_zapLogger sample_struct
    = Some (sample_zap_Logger WarnLevel false) /\
  exists l' w' h' e',
    zapLogger_WithName sample_logger "db" (sample_world "warn" false)
      = (Ok l', w') /\
    logHeap w' !! l'
      = Some {| zapLogger_zapLogger := h';
                zapLogger_infoLogger := {| level := InfoLevel; log := h' |} |} /\
    zapHeap w' !! h' = Some e' /\
    zl_config e' = zl_config (sample_zap_Logger WarnLevel false) /\
    zl_context e' = zl_context (sample_zap_Logger WarnLevel false) /\
    zl_name e'
      = joined_name (zl_name (sample_zap_Logger WarnLevel false)) "db" /\
    trace w' = trace (sample_world "warn" false) /\
    forall v, gate_enabled l' v w'
              = gate_enabled sample_logger v (sample_world "warn" false).
Proof.
  split; [vm_compute; reflexivity|]. split; [vm_compute; reflexivity|].
  apply (WithName_derived_logger sample_logger sample_struct
           (sample_zap_Logger WarnLevel false) (sample_world "warn" false) "db");
    vm_compute; reflexivity.
Defined.

(** X19.  [WithValue] with well-formed pairs on a live logger.  Without
    arguments it records no call and returns a new logger, bound to
    [InfoLevel], whose two engine handles are the receiver's own engine
    logger.  With one pair or more the fields [handleFields] returns start
    with zero values, zap's [With] panics on their unknown type, and no
    logger is created: the state is left as it was. *)
Theorem WithValue_pairs_panic_in_engine :
  forall l s e w keysAndValues,
    logHeap w !! l = Some s ->
    zapHeap w !! zapLogger_zapLogger s = Some e ->
    textual_pairs keysAndValues = true ->
    match keysAndValues with
    | [] =>
        exists l' w',
          zapLogger_WithValue l [] w = (Ok l', w') /\
          logHeap w !! l' = None /\
          logHeap w' !! l'
            = Some {| zapLogger_zapLogger := zapLogger_zapLogger s;
                      zapLogger_infoLogger :=
                        {| level := InfoLevel;
                           log := zapLogger_zapLogger s |} |} /\
          zapHeap w' = zapHeap w /\
          trace w' = trace w
    | _ =>
        zapLogger_WithValue l keysAndValues w = (Panic UnknownFieldType, w)
    end.
Proof.
  intros l s e w kvs Hl He Ht.
  destruct kvs as [|a kvs]; unfold zapLogger_WithValue;
    rewrite (bind_ok _ _ _ _ _ (log_deref_ok _ _ _ Hl)).
  - rewrite (bind_ok _ _ _ _ _
               (eq_refl : handleFields _ [] [] w = (Ok [], w))).
    rewrite (bind_ok _ _ _ _ _ (zap_With_nil _ _ _ He)).
    destruct (NewLogger_full w w (zapLogger_zapLogger s) (grows_refl w))
      as (l' & w2 & E2 & Hnone & Hl' & Hz & Htr).
    exists l', w2. repeat split; assumption.
  - assert (EH : handleFields (zapLogger_zapLogger s) (a :: kvs) [] w
                 = (Ok (normalized (a :: kvs) []), w)).
    { unfold handleFields, normalized.
      rewrite <- (app_nil_r (a :: kvs)) at 1.
      now rewrite (handleFields_loop_textual _ _ _ _ _ Ht). }
    rewrite (bind_ok _ _ _ _ _ EH).
    assert (Hu : has_unknown_field (normalized (a :: kvs) []) = true).
    { rewrite has_unknown_field_normalized. apply Nat.leb_le.
      apply textual_pairs_length; [exact Ht | discriminate]. }
    now rewrite (bind_panic _ _ _ _ _ (zap_With_unknown _ _ _ _ He Hu)).
Qed.

Lemma WithValue_pairs_panic_in_engine_witness :
  logHeap (sample_world "info" false) !! sample_logger = Some sample_struct /\
  zapHeap (sample_world "info" false) !! zapLogger_zapLogger sample_struct
    = Some (sample_zap_Logger InfoLevel false) /\
  textual_pairs [IString "svc"; IString "pay"; IString "shard"; IInt 3]
    = true /\
  zapLogger_WithValue sample_logger
    [IString "svc"; IString "pay"; IString "shard"; IInt 3]
    (sample_world "info" false)
  = (Panic UnknownFieldType, sample_world "info" false).
Proof.
  split; [vm_compute; reflexivity|]. split; [vm_compute; reflexivity|].
  split; [reflexivity|].
  apply (WithValue_pairs_panic_in_engine sample_logger sample_struct
           (sample_zap_Logger InfoLevel false) (sample_world "info" false)
           [IString "svc"; IString "pay"; IString "shard"; IInt 3]);
    [vm_compute; reflexivity | vm_compute; reflexivity | reflexivity].
Defined.

(** ** Write and dangling receivers *)

(** X20.  [Write] hands the bytes to the engine unchanged: on a live
    logger it makes exactly one call, an emission at [InfoLevel] without
    fields on the logger's engine handle, whose message converts back to
    the byte sequence it was given; no object changes. *)
Theorem Write_message_round_trip :
  forall l s e w (p : list Byte.byte),
    logHeap w !! l = Some s ->
    zapHeap w !! zapLogger_zapLogger s = Some e ->
    exists msg,
      zapLogger_Write l p w =
        (Ok (Z.of_nat (length p), None),
         record_call (EvLog (zapLogger_zapLogger s) InfoLevel msg []) w) /\
      String.list_byte_of_string msg = p.
Proof.
  intros l s e w p Hl He.
  exists (String.string_of_list_byte p). split.
  - unfold zapLogger_Write, zap_Info.
    rewrite (bind_ok _ _ _ _ _ (log_deref_ok _ _ _ Hl)).
    now rewrite (bind_ok _ _ _ _ _ (zap_log_run _ _ _ _ _ _ He)).
  - apply String.list_byte_of_string_of_list_byte.
Qed.

Lemma Write_message_round_trip_witness :
  logHeap (sample_world "info" false) !! sample_logger = Some sample_struct /\
  zapHeap (sample_world "info" false) !! zapLogger_zapLogger sample_struct
    = Some (sample_zap_Logger InfoLevel false) /\
  exists msg,
    zapLogger_Write sample_logger [Byte.x6f; Byte.x6b; Byte.x0a]
      (sample_world "info" false) =
      (Ok (Z.of_nat (length [Byte.x6f; Byte.x6b; Byte.x0a]), None),
       record_call
         (EvLog (zapLogger_zapLogger sample_struct) InfoLevel msg [])
         (sample_world "info" false)) /\
    String.list_byte_of_string msg = [Byte.x6f; Byte.x6b; Byte.x0a].
Proof.
  split; [vm_compute; reflexivity|]. split; [vm_compute; reflexivity|].
  apply (Write_message_round_trip sample_logger sample_struct
           (sample_zap_Logger InfoLevel false));
    vm_compute; reflexivity.
Defined.

(** X21.  Calls on a logger pointer that points to no logger panic with a
    nil dereference before anything else happens: [V], [Write],
    [WithValue], [WithName] and the structured calls leave the state
    untouched; in particular [WithValue] does not look at its arguments
    and emits no diagnostic. *)
Theorem dangling_receiver_panics :
  forall l w,
    logHeap w !! l = None ->
    (forall v, zapLogger_V l v w = (Panic NilDereference, w)) /\
    (forall p, zapLogger_Write l p w = (Panic NilDereference, w)) /\
    (forall kvs, zapLogger_WithValue l kvs w = (Panic NilDereference, w)) /\
    (forall s, zapLogger_WithName l s w = (Panic NilDereference, w)) /\
    (forall msg fs,
        zapLogger_Debug l msg fs w = (Panic NilDereference, w) /\
        zapLogger_Info l msg fs w = (Panic NilDereference, w) /\
        zapLogger_Warn l msg fs w = (Panic NilDereference, w) /\
        zapLogger_Error l msg fs w = (Panic NilDereference, w)).
Proof.
  intros l w Hl.
  assert (E : log_deref l w = (Panic NilDereference, w))
    by (unfold log_deref; now rewrite Hl).
  repeat split; intros;
    unfold zapLogger_V, zapLogger_Write, zapLogger_WithValue,
      zapLogger_WithName, zapLogger_Debug, zapLogger_Info, zapLogger_Warn,
      zapLogger_Error;
    apply (bind_panic _ _ _ _ _ E).
Qed.

Lemma dangling_receiver_panics_witness :
  logHeap (sample_world "info" true) !! 7%positive = None /\
  zapLogger_V 7%positive 0 (sample_world "info" true)
    = (Panic NilDereference, sample_world "info" true) /\
  zapLogger_WithValue 7%positive [IInt 1] (sample_world "info" true)
    = (Panic NilDereference, sample_world "info" true).
Proof.
  split; [vm_compute; reflexivity|].
  destruct (dangling_receiver_panics 7%positive (sample_world "info" true))
    as (HV & _ & HW & _); [vm_compute; reflexivity|].
  split; [apply HV | apply HW].
Defined.

(** ** Malformed arguments through the callers *)

Lemma handleFields_malformed l e w args additional :
  zapHeap w !! l = Some e ->
  textual_pairs args = false ->
  exists msg fs,
    handleFields l args additional w =
      (if cfg_Development (zl_config e) then Panic (DPanicRaised msg)
       else Ok (normalized args additional),
       record_call (EvLog l DPanicLevel msg fs) w).
Proof.
  intros Hl Ht. unfold handleFields, normalized.
  destruct args as [|a args]; [discriminate|].
  destruct (handleFields_loop_run l e w (a :: args) Hl
              (make_fields (length (a :: args) / 2 + length additional)))
    as [[Ht' _]|[_ Hr]]; [congruence | exact Hr].
Qed.

Lemma normalized_short args :
  (length args < 2)%nat -> normalized args [] = [].
Proof.
  destruct args as [|a [|b rest]]; simpl; intros H; try lia.
  - reflexivity.
  - unfold normalized. now destruct a.
Qed.

(** X22.  [WithValue] with a malformed argument list on a live logger.
    One diagnostic is emitted on the receiver's engine logger, and it is
    the only call recorded.  In development mode the engine then panics.
    Otherwise, for a list of two elements or more, the fields returned by
    [handleFields] start with zero values and zap's [With] panics on
    their unknown type; for a single element there are no fields and a
    new logger is returned, on the receiver's own engine logger.  A
    logger is created in that last case only. *)
Theorem WithValue_malformed_arguments :
  forall l s e w keysAndValues,
    logHeap w !! l = Some s ->
    zapHeap w !! zapLogger_zapLogger s = Some e ->
    textual_pairs keysAndValues = false ->
    exists msg fs,
      if cfg_Development (zl_config e) then
        zapLogger_WithValue l keysAndValues w =
          (Panic (DPanicRaised msg),
           record_call (EvLog (zapLogger_zapLogger s) DPanicLevel msg fs) w)
      else if (2 <=? length keysAndValues)%nat then
        zapLogger_WithValue l keysAndValues w =
          (Panic UnknownFieldType,
           record_call (EvLog (zapLogger_zapLogger s) DPanicLevel msg fs) w)
      else
        exists l' w',
          zapLogger_WithValue l keysAndValues w = (Ok l', w') /\
          logHeap w !! l' = None /\
          logHeap w' !! l'
            = Some {| zapLogger_zapLogger := zapLogger_zapLogger s;
                      zapLogger_infoLogger :=
                        {| level := InfoLevel;
                           log := zapLogger_zapLogger s |} |} /\
          zapHeap w' = zapHeap w /\
          trace w'
            = trace w ++ [EvLog (zapLogger_zapLogger s) DPanicLevel msg fs].
Proof.
  intros l s e w kvs Hl He Ht.
  destruct (handleFields_malformed _ _ w kvs [] He Ht) as (msg & fs & EH).
  exists msg, fs. unfold zapLogger_WithValue.
  rewrite (bind_ok _ _ _ _ _ (log_deref_ok _ _ _ Hl)).
  destruct (cfg_Development (zl_config e)).
  - now rewrite (bind_panic _ _ _ _ _ EH).
  - rewrite (bind_ok _ _ _ _ _ EH).
    set (w0 := record_call (EvLog (zapLogger_zapLogger s) DPanicLevel msg fs) w).
    assert (He0 : zapHeap w0 !! zapLogger_zapLogger s = Some e) by exact He.
    assert (G0 : grows w w0) by (split; auto).
    destruct (Nat.leb_spec 2 (length kvs)) as [Hlen|Hlen].
    + assert (Hu : has_unknown_field (normalized kvs []) = true).
      { rewrite has_unknown_field_normalized. now apply Nat.leb_le. }
      now rewrite (bind_panic _ _ _ _ _ (zap_With_unknown _ _ _ _ He0 Hu)).
    + rewrite (normalized_short kvs Hlen).
      rewrite (bind_ok _ _ _ _ _ (zap_With_nil _ _ _ He0)).
      destruct (NewLogger_full w w0 (zapLogger_zapLogger s) G0)
        as (l' & w2 & E2 & Hnone & Hl' & Hz & Htr).
      exists l', w2. repeat split; assumption.
Qed.

Lemma WithValue_malformed_arguments_witness :
  logHeap (sample_world "info" false) !! sample_logger = Some sample_struct /\
  zapHeap (sample_world "info" false) !! zapLogger_zapLogger sample_struct
    = Some (sample_zap_Logger InfoLevel false) /\
  textual_pairs [IString "a"; IInt 1; IString "b"] = false /\
  exists msg fs,
    if cfg_Development (zl_config (sample_zap_Logger InfoLevel false)) then
      zapLogger_WithValue sample_logger [IString "a"; IInt 1; IString "b"]
        (sample_world "info" false) =
        (Panic (DPanicRaised msg),
         record_call
           (EvLog (zapLogger_zapLogger sample_struct) DPanicLevel msg fs)
           (sample_world "info" false))
    else if (2 <=? length [IString "a"; IInt 1; IString "b"])%nat then
      zapLogger_WithValue sample_logger [IString "a"; IInt 1; IString "b"]
        (sample_world "info" false) =
        (Panic UnknownFieldType,
         record_call
           (EvLog (zapLogger_zapLogger sample_struct) DPanicLevel msg fs)
           (sample_world "info" false))
    else
      exists l' w',
        zapLogger_WithValue sample_logger [IString "a"; IInt 1; IString "b"]
          (sample_world "info" false) = (Ok l', w') /\
        logHeap (sample_world "info" false) !! l' = None /\
        logHeap w' !! l'
          = Some {| zapLogger_zapLogger := zapLogger_zapLogger sample_struct;
                    zapLogger_infoLogger :=
                      {| level := InfoLevel;
                         log := zapLogger_zapLogger sample_struct |} |} /\
        zapHeap w' = zapHeap (sample_world "info" false) /\
        trace w'
          = trace (sample_world "info" false)
              ++ [EvLog (zapLogger_zapLogger sample_struct) DPanicLevel msg fs].
Proof.
  split; [vm_compute; reflexivity|]. split; [vm_compute; reflexivity|].
  split; [reflexivity|].
  apply (WithValue_malformed_arguments sample_logger sample_struct
           (sample_zap_Logger InfoLevel false) (sample_world "info" false)
           [IString "a"; IInt 1; IString "b"]);
    [vm_compute; reflexivity | vm_compute; reflexivity | reflexivity].
Defined.

(** X23.  [Infow] with a malformed argument list, at a level from debug to
    error and for an entry the engine's core accepts: the [Check], then
    one diagnostic at [DPanicLevel] on the same engine logger.  In
    development mode the engine panics there and nothing is written.
    Otherwise the [Write] is made with the fields [handleFields] returned;
    for a list of two elements or more these start with zero values and
    the write panics in the encoder, for a single element there are no
    fields and the call returns. *)
Theorem infoLogger_Infow_malformed_arguments :
  forall il e w msg keyAndValues,
    zapHeap w !! log il = Some e ->
    DebugLevel <= level il < DPanicLevel ->
    core_accepts e w (trace w ++ [EvCheck (log il) (level il) msg])
      (level il) = true ->
    textual_pairs keyAndValues = false ->
    exists dmsg dfs,
      infoLogger_Infow il msg keyAndValues w =
        if cfg_Development (zl_config e) then
          (Panic (DPanicRaised dmsg),
           record_call (EvLog (log il) DPanicLevel dmsg dfs)
             (record_call (EvCheck (log il) (level il) msg) w))
        else
          (if (2 <=? length keyAndValues)%nat then Panic UnknownFieldType
           else Ok tt,
           record_call
             (EvWrite (log il) (level il) msg (normalized keyAndValues []))
             (record_call (EvLog (log il) DPanicLevel dmsg dfs)
                (record_call (EvCheck (log il) (level il) msg) w))).
Proof.
  intros il e w msg kvs He [_ Hlvl] Hacc Ht.
  set (w0 := record_call (EvCheck (log il) (level il) msg) w).
  assert (He0 : zapHeap w0 !! log il = Some e) by exact He.
  destruct (handleFields_malformed _ _ w0 kvs [] He0 Ht) as (dmsg & dfs & EH).
  exists dmsg, dfs. unfold infoLogger_Infow.
  rewrite (bind_ok _ _ _ _ _ (zap_Check_run _ _ _ _ msg He Hlvl)).
  rewrite Hacc. fold w0.
  destruct (cfg_Development (zl_config e)).
  - now rewrite (bind_panic _ _ _ _ _ EH).
  - rewrite (bind_ok _ _ _ _ _ EH), CheckedEntry_Write_run.
    now rewrite has_unknown_field_normalized.
Qed.

Lemma infoLogger_Infow_malformed_arguments_witness :
  zapHeap (sample_world "info" false)
    !! log {| level := InfoLevel; log := sample_engine |}
    = Some (sample_zap_Logger InfoLevel false) /\
  DebugLevel <= level {| level := InfoLevel; log := sample_engine |}
    < DPanicLevel /\
  core_accepts (sample_zap_Logger InfoLevel false) (sample_world "info" false)
    (trace (sample_world "info" false)
       ++ [EvCheck sample_engine InfoLevel "tick"]) InfoLevel = true /\
  textual_pairs [IString "a"; IInt 1; IBool true; IInt 2] = false /\
  exists dmsg dfs,
    infoLogger_Infow {| level := InfoLevel; log := sample_engine |} "tick"
      [IString "a"; IInt 1; IBool true; IInt 2] (sample_world "info" false) =
      if cfg_Development (zl_config (sample_zap_Logger InfoLevel false)) then
        (Panic (DPanicRaised dmsg),
         record_call (EvLog sample_engine DPanicLevel dmsg dfs)
           (record_call (EvCheck sample_engine InfoLevel "tick")
              (sample_world "info" false)))
      else
        (if (2 <=? length [IString "a"; IInt 1; IBool true; IInt 2])%nat
         then Panic UnknownFieldType else Ok tt,
         record_call
           (EvWrite sample_engine InfoLevel "tick"
              (normalized [IString "a"; IInt 1; IBool true; IInt 2] []))
           (record_call (EvLog sample_engine DPanicLevel dmsg dfs)
              (record_call (EvCheck sample_engine InfoLevel "tick")
                 (sample_world "info" false)))).
Proof.
  split; [vm_compute; reflexivity|].
  split; [simpl; unfold DebugLevel, InfoLevel, DPanicLevel; lia|].
  split; [vm_compute; reflexivity|]. split; [reflexivity|].
  apply (infoLogger_Infow_malformed_arguments
           {| level := InfoLevel; log := sample_engine |}
           (sample_zap_Logger InfoLevel false) (sample_world "info" false));
    [vm_compute; reflexivity
    | simpl; unfold DebugLevel, InfoLevel, DPanicLevel; lia
    | vm_compute; reflexivity | reflexivity].
Defined.
